(** * The spreadsheet loaders of [src/readers/loaders/excel_loader.py]

    A shallow embedding of [PandasExcelReader] and [ExcelReader] together
    with the Python primitives they rely on ([range], slicing, [str.join],
    [str.strip], dict displays), followed by the properties of the loaders.

    Conventions.
    - A Python [str] is a [string]; every [ascii] stands for one code point
      below 256.
    - A Python [int] is a [Z].
    - A call that may raise returns a [result]; the loops thread the
      [output] list explicitly.
    - [pandas] and [pathlib] are collaborators: the frames [read_excel]
      returns and the [name] of the path are inputs of the model. *)

From stdpp Require Import gmap strings list fin_maps pretty.
From Stdlib Require Import ZArith Lia Ascii.

Local Open Scope string_scope.
Local Open Scope list_scope.

(** ** Exceptions and results *)

Inductive exn : Type :=
  | ImportError (msg : string)
  | ValueError (msg : string)
  | TypeError (msg : string)
  | OtherError (name msg : string).

Inductive result (A : Type) : Type :=
  | Ok (a : A)
  | Raise (e : exn).
Arguments Ok {A} a.
Arguments Raise {A} e.

Definition result_bind {A B : Type} (f : A → result B) (r : result A) : result B :=
  match r with
  | Ok a => f a
  | Raise e => Raise e
  end.

#[global] Instance result_mbind : MBind result := @result_bind.
#[global] Instance result_mret : MRet result := @Ok.

(** [for x in xs: body] where the body updates the accumulated [output]
    and may raise: the first exception leaves the loop. *)
Fixpoint for_each {X S : Type} (xs : list X) (body : X → S → result S) (s : S)
  : result S :=
  match xs with
  | [] => Ok s
  | x :: rest => s' ← body x s; for_each rest body s'
  end.

(** [enumerate(xs)] *)
Definition enumerate {X : Type} (xs : list X) : list (Z * X) :=
  imap (λ i x, (Z.of_nat i, x)) xs.

(** ** Values *)

(** The values the loaders put in text and metadata: sheet keys are [str]
    names or [int] positions, metadata holds both. *)
Inductive value : Type :=
  | VInt (n : Z)
  | VStr (s : string).

#[global] Instance value_eq_dec : EqDecision value.
Proof. solve_decision. Defined.

(** [str(v)], as an f-string formats it. *)
Definition py_str (v : value) : string :=
  match v with
  | VInt n => pretty n
  | VStr s => s
  end.

(** ** Strings *)

(** The one-character string [chr(10)]. *)
Definition nl : string := String (ascii_of_nat 10) "".

(** [sep.join(items)] for items that are [str]. *)
Fixpoint join (sep : string) (items : list string) : string :=
  match items with
  | [] => ""
  | x :: rest =>
      match rest with
      | [] => x
      | _ :: _ => x +:+ sep +:+ join sep rest
      end
  end.

(** [str.join] checks every item: the first one that is not a [str] raises
    [TypeError]. *)
Fixpoint str_items (i : nat) (items : list value) : result (list string) :=
  match items with
  | [] => Ok []
  | VStr s :: rest => ss ← str_items (S i) rest; Ok (s :: ss)
  | VInt _ :: _ =>
      Raise (TypeError ("sequence item " +:+ pretty i
                        +:+ ": expected str instance, int found"))
  end.

Definition join_values (sep : string) (items : list value) : result string :=
  ss ← str_items 0 items; Ok (join sep ss).

(** [c.isspace()] for a code point below 256: tab to carriage return, the
    four separators 28-31, space, NEL (133) and the no-break space (160). *)
Definition is_whitespace (c : ascii) : bool :=
  let n := nat_of_ascii c in
  ((9 <=? n)%nat && (n <=? 13)%nat) || ((28 <=? n)%nat && (n <=? 32)%nat)
  || (n =? 133)%nat || (n =? 160)%nat.

Fixpoint lstrip (s : string) : string :=
  match s with
  | "" => ""
  | String c s' => if is_whitespace c then lstrip s' else s
  end.

Fixpoint rstrip (s : string) : string :=
  match s with
  | "" => ""
  | String c s' =>
      match rstrip s' with
      | "" => if is_whitespace c then "" else String c ""
      | r => String c r
      end
  end.

(** [s.strip()] *)
Definition strip (s : string) : string := rstrip (lstrip s).

(** ** [range] and slices *)

(** The number of items of [range(start, stop, step)] for a non-zero step,
    as CPython computes it. *)
Definition range_length (start stop step : Z) : Z :=
  (if 0 <? step then
     if start <? stop then (stop - start - 1) / step + 1 else 0
   else
     if stop <? start then (start - stop - 1) / (- step) + 1 else 0)%Z.

(** The items of [range(start, stop, step)] for a non-zero step. *)
Definition range_items (start stop step : Z) : list Z :=
  (λ k : nat, (start + Z.of_nat k * step)%Z)
    <$> seq 0 (Z.to_nat (range_length start stop step)).

(** [range(start, stop, step)]: a zero step raises [ValueError]. *)
Definition py_range (start stop step : Z) : result (list Z) :=
  if (step =? 0)%Z then Raise (ValueError "range() arg 3 must not be zero")
  else Ok (range_items start stop step).

(** [len(l)] *)
Definition len {A : Type} (l : list A) : Z := Z.of_nat (length l).

(** A slice bound is counted from the end when negative and clamped to
    [0 .. len]. *)
Definition slice_bound (len i : Z) : Z :=
  let i := if (i <? 0)%Z then (i + len)%Z else i in
  Z.max 0 (Z.min len i).

(** [l[lo:hi]] *)
Definition py_slice {A : Type} (l : list A) (lo hi : Z) : list A :=
  let a := slice_bound (len l) lo in
  let b := slice_bound (len l) hi in
  take (Z.to_nat (b - a)) (drop (Z.to_nat a) l).

(** ** Frames *)

(** A cell of a parsed frame is missing ([NaN]) or holds a value, kept here
    as the text [astype(str)] gives for it. *)
Inductive cell : Type :=
  | NaN
  | Val (text : string).

Definition frame : Type := list (list cell).

Definition isna (c : cell) : bool :=
  match c with
  | NaN => true
  | Val _ => false
  end.

(** [df.dropna(axis=0, how="all")]: rows whose cells are all missing go. *)
Definition dropna_all (df : frame) : frame :=
  List.filter (λ row, negb (forallb isna row)) df.

(** [df.fillna("")] *)
Definition fillna_empty (df : frame) : frame :=
  map (map (λ c, match c with NaN => Val "" | Val t => Val t end)) df.

(** [str(c)] of one cell; a missing value prints as [nan]. *)
Definition cell_str (c : cell) : string :=
  match c with
  | NaN => "nan"
  | Val t => t
  end.

(** [df.values.astype(str).tolist()] *)
Definition values_astype_str (df : frame) : list (list string) :=
  map (map cell_str) df.

(** ** Documents *)

Record Document : Type := mkDocument {
  text : string;
  metadata : gmap string value
}.

(** [d.update(other)]: the bindings of [other] replace those of [d]. A
    dict display [{k: v, ..., **other}] is the display of the listed items
    updated with [other]. *)
Definition dict_update (d other : gmap string value) : gmap string value :=
  other ∪ d.

(** [{k1: v1, k2: v2, ...}]: items are stored left to right. *)
Definition dict_display (items : list (string * value)) : gmap string value :=
  foldl (λ d kv, <[kv.1 := kv.2]> d) ∅ items.

(** ** Collaborators *)

(** A [pathlib.Path]; the loaders read only its [name]. *)
Record Path : Type := mkPath {
  name : string
}.

(** The [pandas] module when it can be imported. [read_excel file
    sheet_name config] is called with [sheet_name] either [None] or a list,
    for which it answers with the frames keyed by sheet, in source order,
    or raises. *)
Record pandas : Type := mkPandas {
  read_excel :
    Path → option (list value) → gmap string value → result (list (value * frame))
}.

(** [try: import pandas as pd / except ImportError: raise ImportError(...)] *)
Definition import_pandas (env : option pandas) : result pandas :=
  match env with
  | Some pd => Ok pd
  | None =>
      Raise (ImportError
               "install pandas using `pip3 install pandas` to use this loader")
  end.

(** The [sheet_name] argument: one name or position, or a list of them. *)
Inductive sheet_selector : Type :=
  | OneSheet (v : value)
  | SheetList (l : list value).

(** [[sheet_name] if not isinstance(sheet_name, list) else sheet_name],
    applied when [sheet_name is not None]. *)
Definition as_sheet_list (sheet_name : option sheet_selector) : option (list value) :=
  match sheet_name with
  | None => None
  | Some (OneSheet v) => Some [v]
  | Some (SheetList l) => Some l
  end.

(** [joiner if joiner else default]: the empty string is falsy. *)
Definition joiner_or (joiner default : string) : string :=
  match joiner with
  | "" => default
  | _ => joiner
  end.

(** ** [PandasExcelReader]: the whole workbook as one document *)

Module PandasExcelReader.

Record t : Type := mk {
  _pandas_config : gmap string value;
  _row_joiner : string;
  _col_joiner : string
}.

Definition init (pandas_config : option (gmap string value))
    (row_joiner col_joiner : string) : t :=
  {| _pandas_config := default ∅ pandas_config;
     _row_joiner := joiner_or row_joiner nl;
     _col_joiner := joiner_or col_joiner " " |}.

(** One turn of the loop over the sheets: the lines of one sheet. *)
Definition sheet_lines (include_sheetname : bool) (key : value) (df : frame)
  : list (list value) :=
  let sheet := [] in
  let sheet := if include_sheetname then sheet ++ [[key]] else sheet in
  let df := dropna_all df in
  let df := dropna_all df in
  let df := fillna_empty df in
  sheet ++ (map VStr <$> values_astype_str df).

(** [PandasExcelReader.load_data]: the lines of all sheets are chained,
    each line is joined with the column joiner (which raises on a sheet key
    that is an [int]), and the lines are joined with the row joiner. *)
Definition load_data (self : t) (env : option pandas) (file : Path)
    (include_sheetname : bool) (sheet_name : option sheet_selector)
    (extra_info : option (gmap string value)) : result (list Document) :=
  pd ← import_pandas env;
  let sheet_name := as_sheet_list sheet_name in
  dfs ← read_excel pd file sheet_name (_pandas_config self);
  let df_sheets :=
    foldl (λ df_sheets kd, df_sheets ++ [sheet_lines include_sheetname kd.1 kd.2])
          [] dfs in
  let text_list := concat df_sheets in
  lines ← mapM (join_values (_col_joiner self)) text_list;
  Ok [ {| text := join (_row_joiner self) lines;
          metadata := default ∅ extra_info |} ].

End PandasExcelReader.

(** ** [ExcelReader]: batches of rows, split to a token budget *)

Module ExcelReader.

Record t : Type := mk {
  _pandas_config : gmap string value;
  _row_joiner : string;
  _col_joiner : string;
  _rows_per_doc : Z;
  max_words_per_page : Z
}.

Definition init (pandas_config : option (gmap string value))
    (row_joiner col_joiner : string) (rows_per_doc max_words_per_page : Z) : t :=
  {| _pandas_config := default ∅ pandas_config;
     _row_joiner := joiner_or row_joiner nl;
     _col_joiner := joiner_or col_joiner " ";
     _rows_per_doc := rows_per_doc;
     max_words_per_page := max_words_per_page |}.

(** The reader built with every default of [__init__]. *)
Definition default_reader : t := init None nl " " 1 2048.

(** [df.dropna(axis=0, how="all").astype("object")], [fillna("")], then
    [df.values.astype(str).tolist()]. *)
Definition cleaned_rows (df : frame) : list (list string) :=
  values_astype_str (fillna_empty (dropna_all df)).

(** The [content] of a batch, before it is split. *)
Definition render (self : t) (batch_rows : list (list string)) : string :=
  strip (join (_row_joiner self)
              ((λ row, strip (join (_col_joiner self) row)) <$> batch_rows)).

(** The f-string put before a segment when [include_sheetname] is set. *)
Definition with_sheetname (key : value) (file : Path) (c : string) : string :=
  "(Sheet " +:+ py_str key +:+ " of file " +:+ name file +:+ ")" +:+ nl +:+ c.

(** The items of the metadata display that stand before [**extra_info]. *)
Definition generated_items (idx : Z) (key : value) (i : Z)
    (batch_rows : list (list string)) (c_i : Z) : list (string * value) :=
  [ ("page_label", VInt (idx + 1));
    ("sheet_name", key);
    ("batch_start_row", VInt (i + 1));
    ("batch_end_row", VInt (i + len batch_rows));
    ("content_index", VInt (c_i + 1)) ].

(** The body of the loop over the segments of one batch. *)
Definition segment_document (file : Path) (include_sheetname : bool)
    (extra_info : gmap string value) (idx : Z) (key : value) (i : Z)
    (batch_rows : list (list string)) (c_i : Z) (c : string) : Document :=
  let c := if include_sheetname then with_sheetname key file c else c in
  let metadata :=
    dict_update (dict_display (generated_items idx key i batch_rows c_i))
                extra_info in
  {| text := c; metadata := metadata |}.

(** One pass of the loop over the batches: the sheet's position and key,
    the start [i] and the rows [rows[i:i + rows_per_doc]]. *)
Record batch : Type := mkBatch {
  b_idx : Z;
  b_key : value;
  b_start : Z;
  b_rows : list (list string)
}.

(** The batches of one sheet, in the order the loop visits them. *)
Definition sheet_batches (self : t) (idx : Z) (key : value)
    (rows : list (list string)) : list batch :=
  (λ i, mkBatch idx key i (py_slice rows i (i + _rows_per_doc self)))
    <$> range_items 0 (len rows) (_rows_per_doc self).

(** The batches of all sheets, in the order the loops visit them. *)
Definition workbook_batches (self : t) (dfs : list (value * frame)) : list batch :=
  ikd ← enumerate dfs;
  sheet_batches self ikd.1 ikd.2.1 (cleaned_rows ikd.2.2).

(** The documents appended for one batch, given the segments of its text. *)
Definition batch_documents (file : Path) (include_sheetname : bool)
    (extra_info : gmap string value) (b : batch) (contents : list string)
  : list Document :=
  imap (λ c_i c,
          segment_document file include_sheetname extra_info
            (b_idx b) (b_key b) (b_start b) (b_rows b) (Z.of_nat c_i) c)
       contents.

Section WithSplitter.

(** [split_text] of [src.readers.utils], imported by the loader. *)
Context (split_text : string → Z → result (list string)).

(** The call that splits the text of one batch. *)
Definition split_batch (self : t) (b : batch) : result (list string) :=
  split_text (render self (b_rows b)) (max_words_per_page self).

(** The body of the loop over the batch starts [i]. *)
Definition load_batch (self : t) (file : Path) (include_sheetname : bool)
    (extra_info : gmap string value) (idx : Z) (key : value)
    (rows : list (list string)) (i : Z) (output : list Document)
  : result (list Document) :=
  let batch_rows := py_slice rows i (i + _rows_per_doc self) in
  let content := render self batch_rows in
  contents ← split_text content (max_words_per_page self);
  for_each (enumerate contents)
    (λ ic output,
       Ok (output ++ [segment_document file include_sheetname extra_info
                        idx key i batch_rows ic.1 ic.2]))
    output.

(** The body of the loop over the sheets. *)
Definition load_sheet (self : t) (file : Path) (include_sheetname : bool)
    (extra_info : gmap string value) (idx : Z) (key : value) (df : frame)
    (output : list Document) : result (list Document) :=
  let rows := cleaned_rows df in
  starts ← py_range 0 (len rows) (_rows_per_doc self);
  for_each starts
    (load_batch self file include_sheetname extra_info idx key rows) output.

(** [ExcelReader.load_data]. [read_excel] is called with [sheet_name]
    [None] or a list and answers with a dict of frames, so the branch for a
    lone [DataFrame] (line 184) is never taken and has no counterpart here.
    The loop over [enumerate(dfs.keys())] reads [dfs[key]] at once: the
    keys of a dict are distinct. *)
Definition load_data (self : t) (env : option pandas) (file : Path)
    (include_sheetname : bool) (sheet_name : option sheet_selector)
    (extra_info : option (gmap string value)) : result (list Document) :=
  pd ← import_pandas env;
  let sheet_name := as_sheet_list sheet_name in
  let extra_info := default ∅ extra_info in
  dfs ← read_excel pd file sheet_name (_pandas_config self);
  let output := [] in
  for_each (enumerate dfs)
    (λ ikd output,
       load_sheet self file include_sheetname extra_info
                  ikd.1 ikd.2.1 ikd.2.2 output)
    output.

End WithSplitter.

End ExcelReader.

(** ** [split_text] *)

Module SplitText.

(** What the splitter counts: a tokenizer turns text into tokens and back.
    Decoding loses nothing, decodes a run of tokens piece by piece, and the
    text of a run of tokens never counts more tokens than the run has. *)
Class Tokenizer : Type := {
  token : Type;
  encode : string → list token;
  decode : list token → string;
  decode_encode : ∀ s, decode (encode s) = s;
  decode_app : ∀ ts us, decode (ts ++ us) = decode ts +:+ decode us;
  encode_decode_length : ∀ ts, (length (encode (decode ts)) ≤ length ts)%nat
}.

(** The token count of a text. *)
Definition token_count `{Tokenizer} (s : string) : Z := len (encode s).

(** Modelled from the spec: [split_text] of [src/readers/utils.py], which is
    imported by the loader and is not among the sources. The spec (4.1, step
    3b and the edge cases) asks to "split the rendered string into one or
    more segments such that each segment's token count does not exceed the
    configured maximum, preserving reading order and not dropping content",
    and that a text that "is empty contributes zero segments". It does not
    say what a token is, so the model works for any [Tokenizer]: a new
    segment starts after every [max_tokens] tokens. A text that has tokens
    cannot be split within a budget below one token; there the call raises. *)
Definition split_text `{Tokenizer} (content : string) (max_tokens : Z)
  : result (list string) :=
  let tokens := encode content in
  match tokens with
  | [] => Ok []
  | _ :: _ =>
      if (max_tokens <? 1)%Z
      then Raise (ValueError "max_tokens must be at least 1")
      else Ok ((λ i, decode (py_slice tokens i (i + max_tokens)))
                 <$> range_items 0 (len tokens) max_tokens)
  end.

(** [''.join(segments)] *)
Definition concat_text (segments : list string) : string :=
  foldr String.app "" segments.

End SplitText.

(** A tokenizer to run the model with: one token per character. *)
Module CharTokenizer.

Lemma string_of_list_ascii_app (ts us : list ascii) :
  Strings.String.string_of_list_ascii (ts ++ us)
  = Strings.String.string_of_list_ascii ts +:+ Strings.String.string_of_list_ascii us.
Proof. induction ts as [|c ts IH]; simpl; [done | by rewrite IH]. Qed.

Lemma list_ascii_length (ts : list ascii) :
  (length (Strings.String.list_ascii_of_string (Strings.String.string_of_list_ascii ts)) ≤ length ts)%nat.
Proof. by rewrite Strings.String.list_ascii_of_string_of_list_ascii. Qed.

#[global] Instance tokenizer : SplitText.Tokenizer := {|
  SplitText.token := ascii;
  SplitText.encode := Strings.String.list_ascii_of_string;
  SplitText.decode := Strings.String.string_of_list_ascii;
  SplitText.decode_encode := Strings.String.string_of_list_ascii_of_string;
  SplitText.decode_app := string_of_list_ascii_app;
  SplitText.encode_decode_length := list_ascii_length
|}.

End CharTokenizer.

(** ** The spec's wording, to compare the code with *)

(** The rendering as the spec words it: each row's cells joined with the
    column joiner, the rows joined with the row joiner, and the whole
    trimmed, nothing else. *)
Definition spec_render (self : ExcelReader.t) (batch_rows : list (list string))
  : string :=
  strip (join (ExcelReader._row_joiner self)
              (join (ExcelReader._col_joiner self) <$> batch_rows)).

(** The text of a cell once missing values are normalized. *)
Definition cell_text (c : cell) : string :=
  match c with
  | NaN => ""
  | Val t => t
  end.

(** The cleaning as the spec words it: missing cells become empty text,
    then the rows in which every cell is empty are dropped. *)
Definition spec_cleaned_rows (df : frame) : list (list string) :=
  List.filter (λ row, negb (forallb (λ t, bool_decide (t = "")) row))
              (map cell_text <$> df).

(** ** Row numbers of a batch *)

(** The row numbers the loader generates for a batch. *)
Definition batch_start_row (b : ExcelReader.batch) : Z :=
  (ExcelReader.b_start b + 1)%Z.

Definition batch_end_row (b : ExcelReader.batch) : Z :=
  (ExcelReader.b_start b + len (ExcelReader.b_rows b))%Z.

(** ** Workbooks to run the loaders on *)

(** A [pandas] whose [read_excel] answers with the given frames. *)
Definition workbook (dfs : list (value * frame)) : pandas :=
  {| read_excel := λ _ _ _, Ok dfs |}.

Definition book : Path := {| name := "book.xlsx" |}.

(** The loader with the model of [split_text], one token per character. *)
Definition load_data_chars :=
  ExcelReader.load_data (SplitText.split_text (H := CharTokenizer.tokenizer)).

(** The sheet of the scenario; its second row is missing throughout. *)
Definition scenario_sheet : frame :=
  [ [Val "a"; Val "b"]; [NaN; NaN]; [Val "c"; Val "d"] ].

(** The metadata of the scenario's document for cleaned row [row]. *)
Definition scenario_metadata (row : Z) : gmap string value :=
  dict_display [ ("page_label", VInt 1); ("sheet_name", VStr "Sheet1");
                 ("batch_start_row", VInt row); ("batch_end_row", VInt row);
                 ("content_index", VInt 1) ].

(** Three rows in batches of two. *)
Definition three_rows : frame := [ [Val "r1"]; [Val "r2"]; [Val "r3"] ].

(** A row longer than a budget of two tokens, then a row of blanks. *)
Definition long_row_sheets : list (value * frame) :=
  [ (VStr "Sheet1", [ [Val "abc"]; [Val " "] ]) ].

Definition two_token_reader : ExcelReader.t := ExcelReader.init None nl " " 1 2.

Definition long_row_documents : list Document :=
  [ ExcelReader.segment_document book false ∅ 0 (VStr "Sheet1") 0 [["abc"]] 0 "ab";
    ExcelReader.segment_document book false ∅ 0 (VStr "Sheet1") 0 [["abc"]] 1 "c" ].

(** A splitter that refuses texts of more than three characters. *)
Definition short_texts_only (content : string) (max_tokens : Z)
  : result (list string) :=
  if (3 <? Strings.String.length content)%nat
  then Raise (ValueError "too long")
  else Ok [content].

(** * Properties *)

(** ** Results and loops *)

Lemma result_bind_Ok {A B : Type} (f : A → result B) (r : result A) (b : B) :
  r ≫= f = Ok b ↔ ∃ a, r = Ok a ∧ f a = Ok b.
Proof.
  destruct r as [a|e]; simpl; split.
  - intros Hf. by exists a.
  - by intros (a' & [= <-] & Hf).
  - done.
  - by intros (a' & [=] & _).
Qed.

Lemma mapM_Ok {X Y : Type} (g : X → result Y) (xs : list X) (ys : list Y) :
  mapM g xs = Ok ys ↔ Forall2 (λ x y, g x = Ok y) xs ys.
Proof.
  revert ys. induction xs as [|x xs IH]; intros ys; simpl.
  - split.
    + intros [= <-]. constructor.
    + intros ->%Forall2_nil_inv_l. done.
  - split.
    + intros (y & Hy & (ys' & Hys & [= <-])%result_bind_Ok)%result_bind_Ok.
      constructor; [done | by apply IH].
    + intros (y & ys' & Hy & Hys & ->)%Forall2_cons_inv_l.
      apply result_bind_Ok. exists y. split; [done |].
      apply result_bind_Ok. exists ys'. split; [by apply IH | done].
Qed.

Lemma enumerate_imap {X Y : Type} (f : Z → X → Y) (xs : list X) :
  (λ ix, f ix.1 ix.2) <$> enumerate xs = imap (λ i x, f (Z.of_nat i) x) xs.
Proof. unfold enumerate. by rewrite fmap_imap. Qed.

(** ** Ranges and slices *)

Lemma range_length_pos (stop step : Z) :
  (0 < step)%Z → (0 ≤ stop)%Z →
  ∀ k : nat, (k < Z.to_nat (range_length 0 stop step))%nat ↔ (Z.of_nat k * step < stop)%Z.
Proof.
  intros Hstep Hstop k. unfold range_length.
  destruct (Z.ltb_spec 0 step) as [_|?]; [|lia].
  destruct (Z.ltb_spec 0 stop) as [Hpos|Hnpos].
  - rewrite !Z.sub_0_r.
    pose proof (Z.div_pos (stop - 1) step ltac:(lia) Hstep) as Hq.
    split.
    + intros Hk.
      assert (Z.of_nat k ≤ (stop - 1) / step)%Z as Hle by lia.
      pose proof (Z.mul_div_le (stop - 1) step Hstep). nia.
    + intros Hk.
      assert (Z.of_nat k ≤ (stop - 1) / step)%Z; [|lia].
      apply Z.div_le_lower_bound; lia.
  - split; [lia | nia].
Qed.

Lemma range_items_lookup (stop step : Z) (k : nat) (i : Z) :
  range_items 0 stop step !! k = Some i →
  i = (Z.of_nat k * step)%Z
  ∧ (k < Z.to_nat (range_length 0 stop step))%nat.
Proof.
  unfold range_items. rewrite list_lookup_fmap.
  intros (k' & [-> Hk]%lookup_seq & ->)%fmap_Some. simpl. split; lia.
Qed.

Lemma range_items_length (start stop step : Z) :
  length (range_items start stop step) = Z.to_nat (range_length start stop step).
Proof. unfold range_items. by rewrite length_fmap, length_seq. Qed.

(** Within the list, [l[i:i+n]] takes [n] items from position [i] on. *)
Lemma py_slice_take_drop {A : Type} (l : list A) (i n : Z) :
  (0 ≤ i ≤ len l)%Z → (0 < n)%Z →
  py_slice l i (i + n) = take (Z.to_nat n) (drop (Z.to_nat i) l).
Proof.
  intros Hi Hn. unfold py_slice, slice_bound, len in *.
  destruct (Z.ltb_spec i 0) as [?|_]; [lia|].
  destruct (Z.ltb_spec (i + n) 0) as [?|_]; [lia|].
  assert (Z.max 0 (Z.min (Z.of_nat (length l)) i) = i) as -> by lia.
  destruct (Z.le_gt_cases (i + n) (Z.of_nat (length l))) as [Hin|Hout].
  - f_equal. lia.
  - rewrite !take_ge; [done | rewrite length_drop; lia ..].
Qed.

Lemma py_slice_length {A : Type} (l : list A) (i n : Z) :
  (0 ≤ i ≤ len l)%Z → (0 < n)%Z →
  len (py_slice l i (i + n)) = Z.min n (len l - i).
Proof.
  intros Hi Hn. rewrite py_slice_take_drop by done.
  unfold len in *. rewrite length_take, length_drop. lia.
Qed.

(** Cutting a list every [n] items and gluing the pieces gives it back. *)
Lemma concat_take_drop {A : Type} (n : nat) (l : list A) (c : nat) :
  (0 < n)%nat → (length l ≤ c * n)%nat →
  concat ((λ k, take n (drop (k * n) l)) <$> seq 0 c) = l.
Proof.
  intros Hn. revert l. induction c as [|c IH]; intros l Hl.
  - destruct l; [done | simpl in Hl; lia].
  - rewrite <- cons_seq, fmap_cons, concat_cons, <- fmap_S_seq, <- list_fmap_compose.
    simpl. rewrite drop_0.
    rewrite <- (take_drop n l) at 2. f_equal.
    rewrite <- (IH (drop n l)) by (rewrite length_drop; lia).
    f_equal. apply list_fmap_ext. intros _ k _. simpl.
    by rewrite drop_drop.
Qed.

Lemma range_slices_take_drop {A : Type} (l : list A) (n : Z) :
  (0 < n)%Z →
  (λ i, py_slice l i (i + n)) <$> range_items 0 (len l) n
  = (λ k, take (Z.to_nat n) (drop (k * Z.to_nat n) l))
      <$> seq 0 (Z.to_nat (range_length 0 (len l) n)).
Proof.
  intros Hn. unfold range_items. rewrite <- list_fmap_compose.
  apply list_fmap_ext. intros j k [-> Hk]%lookup_seq. simpl.
  apply (range_length_pos (len l) n) in Hk; [|done|unfold len; lia].
  rewrite py_slice_take_drop by lia. do 2 f_equal. lia.
Qed.

Lemma concat_range_slices {A : Type} (l : list A) (n : Z) :
  (0 < n)%Z →
  concat ((λ i, py_slice l i (i + n)) <$> range_items 0 (len l) n) = l.
Proof.
  intros Hn. rewrite range_slices_take_drop by done.
  apply concat_take_drop; [lia|].
  destruct (decide (length l ≤ Z.to_nat (range_length 0 (len l) n) * Z.to_nat n)%nat)
    as [|Hgt]; [done|].
  exfalso. apply Hgt. clear Hgt.
  set (c := Z.to_nat (range_length 0 (len l) n)).
  destruct (decide (Z.of_nat c * n < len l)%Z) as [Hlt|]; [|unfold len in *; nia].
  apply (range_length_pos (len l) n) in Hlt; [|done|unfold len; lia].
  fold c in Hlt. lia.
Qed.

Lemma mapM_cons {X Y : Type} (g : X → result Y) (x : X) (xs : list X) :
  mapM g (x :: xs) = y ← g x; ys ← mapM g xs; Ok (y :: ys).
Proof. done. Qed.

Lemma mapM_app {X Y : Type} (g : X → result Y) (xs1 xs2 : list X) :
  mapM g (xs1 ++ xs2)
  = ys1 ← mapM g xs1; ys2 ← mapM g xs2; Ok (ys1 ++ ys2).
Proof.
  induction xs1 as [|x xs1 IH].
  - simpl. by destruct (mapM g xs2).
  - rewrite <- app_comm_cons, !mapM_cons, IH.
    destruct (g x) as [y|e]; simpl; [|done].
    destruct (mapM g xs1) as [ys1|e]; simpl; [|done].
    by destruct (mapM g xs2).
Qed.

Lemma mapM_length {X Y : Type} (g : X → result Y) (xs : list X) (ys : list Y) :
  mapM g xs = Ok ys → length ys = length xs.
Proof. intros Hys%mapM_Ok. symmetry. by eapply Forall2_length. Qed.

(** ** Trimming *)

Lemma lstrip_head (s : string) :
  lstrip s = "" ∨ ∃ c t, lstrip s = String c t ∧ is_whitespace c = false.
Proof.
  induction s as [|c s IH]; simpl; [by left|].
  destruct (is_whitespace c) eqn:Hc; [done|]. right. by exists c, s.
Qed.

Lemma rstrip_cons (c : ascii) (t : string) :
  is_whitespace c = false → rstrip (String c t) = String c (rstrip t).
Proof. intros Hc. simpl. rewrite Hc. by destruct (rstrip t). Qed.

Lemma rstrip_idemp (s : string) : rstrip (rstrip s) = rstrip s.
Proof.
  induction s as [|c s IH]; simpl; [done|].
  destruct (rstrip s) as [|d r] eqn:Hr.
  - destruct (is_whitespace c) eqn:Hc; simpl; [done | by rewrite Hc].
  - change (rstrip (String c (String d r))) with
      (match rstrip (String d r) with
       | "" => if is_whitespace c then "" else String c ""
       | String _ _ as r' => String c r'
       end).
    by rewrite IH.
Qed.

Lemma strip_idemp (s : string) : strip (strip s) = strip s.
Proof.
  unfold strip. destruct (lstrip_head s) as [->|(c & t & -> & Hc)]; [done|].
  rewrite (rstrip_cons c t Hc). simpl lstrip. rewrite Hc.
  rewrite <- (rstrip_cons c t Hc). apply rstrip_idemp.
Qed.

(** ** Dict displays *)

Lemma dict_update_lookup (d other : gmap string value) (k : string) :
  dict_update d other !! k
  = match other !! k with
    | Some v => Some v
    | None => d !! k
    end.
Proof.
  unfold dict_update. destruct (other !! k) as [v|] eqn:Hk.
  - by apply lookup_union_Some_l.
  - by apply lookup_union_r.
Qed.

(** ** The loops of [ExcelReader.load_data] *)

Section Loops.

Import ExcelReader.

Context (split_text : string → Z → result (list string)).
Context (self : t) (file : Path) (include_sheetname : bool).
Context (extra_info : gmap string value).

Local Abbreviation docs := (batch_documents file include_sheetname extra_info).
Local Abbreviation split := (split_batch split_text self).

Lemma segments_loop {X D : Type} (f : Z → X → D) (ixs : list (Z * X)) (output : list D) :
  for_each ixs (λ ix output, Ok (output ++ [f ix.1 ix.2])) output
  = Ok (output ++ ((λ ix, f ix.1 ix.2) <$> ixs)).
Proof.
  revert output. induction ixs as [|ix ixs IH]; intros output; simpl.
  - by rewrite app_nil_r.
  - rewrite IH. by rewrite <- app_assoc.
Qed.

Lemma load_batch_eq (idx : Z) (key : value) (rows : list (list string)) (i : Z)
    (output : list Document) :
  load_batch split_text self file include_sheetname extra_info idx key rows i output
  = segs ← split (mkBatch idx key i (py_slice rows i (i + _rows_per_doc self)));
    Ok (output ++ docs (mkBatch idx key i (py_slice rows i (i + _rows_per_doc self))) segs).
Proof.
  unfold load_batch, split_batch. simpl.
  destruct (split_text _ _) as [segs|e]; simpl; [|done].
  rewrite (segments_loop
             (λ c_i c, segment_document file include_sheetname extra_info idx key i
                         (py_slice rows i (i + _rows_per_doc self)) c_i c)).
  by rewrite enumerate_imap.
Qed.

Lemma batches_loop (idx : Z) (key : value) (rows : list (list string))
    (starts : list Z) (output : list Document) :
  let bs := (λ i, mkBatch idx key i (py_slice rows i (i + _rows_per_doc self)))
              <$> starts in
  for_each starts
    (load_batch split_text self file include_sheetname extra_info idx key rows) output
  = segss ← mapM split bs; Ok (output ++ concat (zip_with docs bs segss)).
Proof.
  simpl. revert output. induction starts as [|i starts IH]; intros output.
  - simpl. by rewrite app_nil_r.
  - rewrite fmap_cons, mapM_cons. simpl for_each. rewrite load_batch_eq.
    destruct (split _) as [segs|e]; simpl; [|done].
    rewrite IH. destruct (mapM _ _) as [segss|e]; simpl; [|done].
    by rewrite <- app_assoc.
Qed.

Lemma load_sheet_eq (idx : Z) (key : value) (df : frame) (output : list Document) :
  _rows_per_doc self ≠ 0%Z →
  let bs := sheet_batches self idx key (cleaned_rows df) in
  load_sheet split_text self file include_sheetname extra_info idx key df output
  = segss ← mapM split bs; Ok (output ++ concat (zip_with docs bs segss)).
Proof.
  intros Hn. unfold load_sheet, py_range.
  destruct (Z.eqb_spec (_rows_per_doc self) 0) as [?|_]; [done|].
  simpl. by rewrite batches_loop.
Qed.

Lemma load_sheet_zero_step (idx : Z) (key : value) (df : frame)
    (output : list Document) :
  _rows_per_doc self = 0%Z →
  load_sheet split_text self file include_sheetname extra_info idx key df output
  = Raise (ValueError "range() arg 3 must not be zero").
Proof. intros Hn. unfold load_sheet, py_range. by rewrite Hn. Qed.

Lemma sheets_loop (ikds : list (Z * (value * frame))) (output : list Document) :
  _rows_per_doc self ≠ 0%Z →
  let bs := ikds ≫= λ ikd, sheet_batches self ikd.1 ikd.2.1 (cleaned_rows ikd.2.2) in
  for_each ikds
    (λ ikd output,
       load_sheet split_text self file include_sheetname extra_info
                  ikd.1 ikd.2.1 ikd.2.2 output)
    output
  = segss ← mapM split bs; Ok (output ++ concat (zip_with docs bs segss)).
Proof.
  intros Hn. simpl. revert output.
  induction ikds as [|ikd ikds IH]; intros output.
  - simpl. by rewrite app_nil_r.
  - rewrite bind_cons, mapM_app. simpl for_each.
    rewrite load_sheet_eq by done.
    destruct (mapM split (sheet_batches _ _ _ _)) as [segss1|e] eqn:H1; simpl; [|done].
    rewrite IH. destruct (mapM split _) as [segss2|e]; simpl; [|done].
    rewrite zip_with_app by (symmetry; by eapply mapM_length).
    by rewrite concat_app, app_assoc.
Qed.

End Loops.

Section LoadData.

Import ExcelReader.

Context (split_text : string → Z → result (list string)).

(** Once the workbook is read and the step is not zero, [load_data] splits
    the text of each batch in turn and returns the documents of all
    batches, in order; the first split that raises ends the call. *)
Lemma load_data_eq (self : t) (pd : pandas) (file : Path) (include_sheetname : bool)
    (sheet_name : option sheet_selector) (extra_info : option (gmap string value))
    (dfs : list (value * frame)) :
  read_excel pd file (as_sheet_list sheet_name) (_pandas_config self) = Ok dfs →
  _rows_per_doc self ≠ 0%Z →
  load_data split_text self (Some pd) file include_sheetname sheet_name extra_info
  = segss ← mapM (split_batch split_text self) (workbook_batches self dfs);
    Ok (concat (zip_with (batch_documents file include_sheetname (default ∅ extra_info))
                         (workbook_batches self dfs) segss)).
Proof.
  intros Hread Hn. unfold load_data. simpl. rewrite Hread. simpl.
  by rewrite sheets_loop.
Qed.

(** What a call that returns has gone through. *)
Lemma load_data_Ok_inv (self : t) (env : option pandas) (file : Path)
    (include_sheetname : bool) (sheet_name : option sheet_selector)
    (extra_info : option (gmap string value)) (out : list Document) :
  load_data split_text self env file include_sheetname sheet_name extra_info = Ok out →
  ∃ pd dfs segss,
    env = Some pd
    ∧ read_excel pd file (as_sheet_list sheet_name) (_pandas_config self) = Ok dfs
    ∧ Forall2 (λ b segs, split_batch split_text self b = Ok segs)
              (workbook_batches self dfs) segss
    ∧ out = concat (zip_with (batch_documents file include_sheetname
                                (default ∅ extra_info))
                             (workbook_batches self dfs) segss).
Proof.
  intros Hload. destruct env as [pd|]; [|done].
  destruct (read_excel pd file (as_sheet_list sheet_name) (_pandas_config self))
    as [dfs|e] eqn:Hread; [|unfold load_data in Hload; simpl in Hload;
                            by rewrite Hread in Hload].
  exists pd, dfs.
  destruct (decide (_rows_per_doc self = 0%Z)) as [Hz|Hnz].
  - unfold load_data in Hload. simpl in Hload. rewrite Hread in Hload.
    simpl in Hload. destruct dfs as [|kd dfs].
    + injection Hload as <-. exists []. repeat split; [done | constructor].
    + simpl in Hload. by rewrite load_sheet_zero_step in Hload.
  - rewrite (load_data_eq _ _ _ _ _ _ dfs) in Hload by done.
    apply result_bind_Ok in Hload as (segss & Hsegss%mapM_Ok & [= <-]).
    by exists segss.
Qed.

End LoadData.

(** ** Members of the output *)

Lemma elem_of_concat_zip_with {B S D : Type} (f : B → S → list D)
    (bs : list B) (ss : list S) (d : D) :
  d ∈ concat (zip_with f bs ss) →
  ∃ k b s, bs !! k = Some b ∧ ss !! k = Some s ∧ d ∈ f b s.
Proof.
  intros (ds & Hds & Hd)%list_elem_of_In%in_concat.
  apply list_elem_of_In, list_elem_of_lookup in Hds as [k Hk].
  apply list_elem_of_In in Hd.
  apply lookup_zip_with_Some in Hk as (b & s & -> & Hb & Hs).
  by exists k, b, s.
Qed.

Lemma elem_of_batch_documents (file : Path) (include_sheetname : bool)
    (extra_info : gmap string value) (b : ExcelReader.batch)
    (segs : list string) (d : Document) :
  d ∈ ExcelReader.batch_documents file include_sheetname extra_info b segs →
  ∃ (c_i : nat) (c : string),
    segs !! c_i = Some c
    ∧ d = ExcelReader.segment_document file include_sheetname extra_info
            (ExcelReader.b_idx b) (ExcelReader.b_key b) (ExcelReader.b_start b)
            (ExcelReader.b_rows b) (Z.of_nat c_i) c.
Proof.
  unfold ExcelReader.batch_documents.
  intros (c_i & c & -> & Hc)%elem_of_lookup_imap. by exists c_i, c.
Qed.

(** ** The metadata display *)

Section Metadata.

Import ExcelReader.

Context (idx : Z) (key : value) (i : Z) (batch_rows : list (list string)) (c_i : Z).

Local Abbreviation generated := (dict_display (generated_items idx key i batch_rows c_i)).

Lemma generated_keys (k : string) :
  k ∈ ["page_label"; "sheet_name"; "batch_start_row"; "batch_end_row"; "content_index"] →
  is_Some (generated !! k).
Proof.
  rewrite !elem_of_cons, elem_of_nil.
  intros [->|[->|[->|[->|[->|[]]]]]]; by eexists.
Qed.

End Metadata.

(** A run with a colliding [extra_info] key. *)
Lemma colliding_key_run :
  load_data_chars ExcelReader.default_reader
    (Some (workbook [(VStr "Sheet1", [[Val "a"]])])) book false None
    (Some {[ "page_label" := VStr "x" ]})
  = Ok [ {| text := "a";
            metadata :=
              <[ "page_label" := VStr "x" ]>
                (dict_display
                   (ExcelReader.generated_items 0 (VStr "Sheet1") 0 [["a"]] 0)) |} ].
Proof. by vm_compute. Qed.

(** * The claims *)

(** ** Metadata *)

(** C1, as stated, fails: with [extra_info = {"page_label": "x"}] the one
    document of a one-cell sheet carries [page_label = "x"], where the
    generated value is [1]: the caller's value replaces the generated one. *)
Lemma caller_page_label_replaces_generated :
  load_data_chars ExcelReader.default_reader
    (Some (workbook [(VStr "Sheet1", [[Val "a"]])])) book false None
    (Some {[ "page_label" := VStr "x" ]})
  = Ok [ {| text := "a";
            metadata :=
              <[ "page_label" := VStr "x" ]>
                (dict_display
                   (ExcelReader.generated_items 0 (VStr "Sheet1") 0 [["a"]] 0)) |} ]
  ∧ dict_display (ExcelReader.generated_items 0 (VStr "Sheet1") 0 [["a"]] 0)
      !! "page_label" = Some (VInt 1).
Proof. split; [exact colliding_key_run | reflexivity]. Qed.

(** Every batch is a slice of the cleaned rows of one sheet, taken at a
    start of the range over these rows. *)
Lemma workbook_batches_origin (self : ExcelReader.t) (dfs : list (value * frame))
    (b : ExcelReader.batch) :
  b ∈ ExcelReader.workbook_batches self dfs →
  ∃ (idx : nat) (key : value) (df : frame) (i : Z),
    dfs !! idx = Some (key, df)
    ∧ i ∈ range_items 0 (len (ExcelReader.cleaned_rows df))
            (ExcelReader._rows_per_doc self)
    ∧ b = ExcelReader.mkBatch (Z.of_nat idx) key i
            (py_slice (ExcelReader.cleaned_rows df) i
                      (i + ExcelReader._rows_per_doc self)).
Proof.
  unfold ExcelReader.workbook_batches.
  intros ([i' [key df]] & Hb & Hikd)%list_elem_of_bind.
  apply list_elem_of_lookup in Hikd as [idx Hidx].
  unfold enumerate in Hidx. rewrite list_lookup_imap in Hidx.
  destruct (dfs !! idx) as [[key' df']|] eqn:Hdf; [|done].
  injection Hidx as <- <- <-.
  unfold ExcelReader.sheet_batches in Hb. simpl in Hb.
  apply list_elem_of_fmap in Hb as (i & -> & Hi).
  by exists idx, key', df', i.
Qed.

(** C1, amended: every document's metadata holds each [extra_info] item
    with the caller's value, also under a generated key (the caller's keys
    win); the five generated keys are always present. A document comes from
    one segment [c], at position [j] (from 0) among the segments of the
    batch that starts at [i] in the cleaned rows of the sheet at position
    [idx] (from 0) with key [key]; under a key that [extra_info] does not
    define its metadata holds [page_label = idx + 1], [sheet_name = key],
    [batch_start_row = i + 1], [batch_end_row = i + ] the number of rows of
    the batch, [content_index = j + 1], and nothing else. *)
Theorem extra_info_replaces_generated
    (split_text : string → Z → result (list string)) (self : ExcelReader.t)
    (env : option pandas) (file : Path) (include_sheetname : bool)
    (sheet_name : option sheet_selector) (extra_info : option (gmap string value))
    (out : list Document) (d : Document) :
  ExcelReader.load_data split_text self env file include_sheetname sheet_name extra_info
    = Ok out →
  d ∈ out →
  (∀ k v, default ∅ extra_info !! k = Some v → metadata d !! k = Some v)
  ∧ (∀ k, k ∈ ["page_label"; "sheet_name"; "batch_start_row"; "batch_end_row";
               "content_index"] → is_Some (metadata d !! k))
  ∧ ∃ pd dfs (idx : nat) key df (i : Z) segs (j : nat) c,
      env = Some pd
      ∧ read_excel pd file (as_sheet_list sheet_name) (ExcelReader._pandas_config self)
        = Ok dfs
      ∧ dfs !! idx = Some (key, df)
      ∧ i ∈ range_items 0 (len (ExcelReader.cleaned_rows df))
              (ExcelReader._rows_per_doc self)
      ∧ split_text
          (ExcelReader.render self
             (py_slice (ExcelReader.cleaned_rows df) i
                       (i + ExcelReader._rows_per_doc self)))
          (ExcelReader.max_words_per_page self) = Ok segs
      ∧ segs !! j = Some c
      ∧ text d = (if include_sheetname
                  then ExcelReader.with_sheetname key file c
                  else c)
      ∧ ∀ k, default ∅ extra_info !! k = None →
             metadata d !! k
             = ({[ "page_label" := VInt (Z.of_nat idx + 1);
                   "sheet_name" := key;
                   "batch_start_row" := VInt (i + 1);
                   "batch_end_row" :=
                     VInt (i + Z.of_nat
                                 (length
                                    (py_slice (ExcelReader.cleaned_rows df) i
                                       (i + ExcelReader._rows_per_doc self))));
                   "content_index" := VInt (Z.of_nat j + 1) ]}
                : gmap string value) !! k.
Proof.
  intros (pd & dfs & segss & -> & Hread & Hsplit & ->)%load_data_Ok_inv Hd.
  apply elem_of_concat_zip_with in Hd as (n & b & segs & Hb & Hsegs & Hd).
  apply elem_of_batch_documents in Hd as (c_i & c & Hc & ->). simpl.
  split; [|split].
  - intros k v Hk. by rewrite dict_update_lookup, Hk.
  - intros k Hk. rewrite dict_update_lookup.
    destruct (default ∅ extra_info !! k); [by eexists | by apply generated_keys].
  - destruct (workbook_batches_origin self dfs b) as (idx & key & df & i & Hdf & Hi & ->).
    { apply list_elem_of_lookup. by exists n. }
    exists pd, dfs, idx, key, df, i, segs, c_i, c.
    split; [done|]. split; [done|]. split; [done|]. split; [done|]. split.
    { eapply Forall2_lookup_lr in Hsplit; [|exact Hb|exact Hsegs]. exact Hsplit. }
    split; [done|]. split; [done|].
    intros k Hk. simpl. by rewrite dict_update_lookup, Hk.
Qed.

(** The run of [colliding_key_run], with the metadata written out. *)
Lemma colliding_key_metadata :
  load_data_chars ExcelReader.default_reader
    (Some (workbook [(VStr "Sheet1", [[Val "a"]])])) book false None
    (Some {[ "page_label" := VStr "x" ]})
  = Ok [ {| text := "a";
            metadata := {[ "page_label" := VStr "x";
                           "sheet_name" := VStr "Sheet1";
                           "batch_start_row" := VInt 1;
                           "batch_end_row" := VInt 1;
                           "content_index" := VInt 1 ]} |} ].
Proof. by vm_compute. Qed.

Lemma extra_info_replaces_generated_witness :
  let d := {| text := "a";
              metadata := {[ "page_label" := VStr "x";
                             "sheet_name" := VStr "Sheet1";
                             "batch_start_row" := VInt 1;
                             "batch_end_row" := VInt 1;
                             "content_index" := VInt 1 ]} |} in
  (∀ k v, ({[ "page_label" := VStr "x" ]} : gmap string value) !! k = Some v →
          metadata d !! k = Some v)
  ∧ ∃ (idx : nat) key df (i : Z) (j : nat),
      [(VStr "Sheet1", [[Val "a"]])] !! idx = Some (key, df)
      ∧ i ∈ range_items 0 (len (ExcelReader.cleaned_rows df)) 1
      ∧ ∀ k, ({[ "page_label" := VStr "x" ]} : gmap string value) !! k = None →
             metadata d !! k
             = ({[ "page_label" := VInt (Z.of_nat idx + 1);
                   "sheet_name" := key;
                   "batch_start_row" := VInt (i + 1);
                   "batch_end_row" :=
                     VInt (i + Z.of_nat
                                 (length (py_slice (ExcelReader.cleaned_rows df) i
                                                   (i + 1))));
                   "content_index" := VInt (Z.of_nat j + 1) ]}
                : gmap string value) !! k.
Proof.
  intros d.
  destruct (extra_info_replaces_generated
              (SplitText.split_text (H := CharTokenizer.tokenizer))
              ExcelReader.default_reader
              (Some (workbook [(VStr "Sheet1", [[Val "a"]])])) book false None
              (Some {[ "page_label" := VStr "x" ]}) [d] d
              colliding_key_metadata
              ltac:(apply list_elem_of_singleton; reflexivity))
    as (Hextra & _ & pd & dfs & idx & key & df & i & segs & j & c
        & Hpd & Hread & Hdf & Hi & _ & _ & _ & Hmeta).
  injection Hpd as <-. injection Hread as <-.
  split; [exact Hextra|].
  exists idx, key, df, i, j. split; [exact Hdf|]. split; [exact Hi | exact Hmeta].
Defined.

(** ** Errors *)

(** C8: when [pandas] cannot be imported, [load_data] of either loader
    raises [ImportError] with the message that asks to install it; the
    result is the exception alone, no list of documents comes with it. *)
Theorem load_data_without_pandas
    (split_text : string → Z → result (list string)) (self : ExcelReader.t)
    (legacy : PandasExcelReader.t) (file : Path) (include_sheetname : bool)
    (sheet_name : option sheet_selector) (extra_info : option (gmap string value)) :
  ExcelReader.load_data split_text self None file include_sheetname sheet_name extra_info
    = Raise (ImportError
               "install pandas using `pip3 install pandas` to use this loader")
  ∧ PandasExcelReader.load_data legacy None file include_sheetname sheet_name extra_info
    = Raise (ImportError
               "install pandas using `pip3 install pandas` to use this loader").
Proof. split; reflexivity. Qed.

(** C10: with [rows_per_doc = 0] and a workbook of at least one sheet,
    [load_data] raises the [ValueError] of a zero range step and returns no
    list of documents, whatever the sheets hold. *)
Theorem load_data_zero_rows_per_doc
    (split_text : string → Z → result (list string)) (self : ExcelReader.t)
    (pd : pandas) (file : Path) (include_sheetname : bool)
    (sheet_name : option sheet_selector) (extra_info : option (gmap string value))
    (dfs : list (value * frame)) :
  ExcelReader._rows_per_doc self = 0%Z →
  read_excel pd file (as_sheet_list sheet_name) (ExcelReader._pandas_config self)
    = Ok dfs →
  dfs ≠ [] →
  ExcelReader.load_data split_text self (Some pd) file include_sheetname sheet_name
    extra_info
  = Raise (ValueError "range() arg 3 must not be zero").
Proof.
  intros Hn Hread Hdfs. unfold ExcelReader.load_data. simpl. rewrite Hread. simpl.
  destruct dfs as [|kd dfs]; [done|]. simpl.
  by rewrite load_sheet_zero_step.
Qed.

Lemma load_data_zero_rows_per_doc_witness :
  load_data_chars (ExcelReader.init None nl " " 0 2048)
    (Some (workbook [(VStr "Sheet1", [[Val "a"; Val "b"]])])) book true None None
  = Raise (ValueError "range() arg 3 must not be zero").
Proof.
  apply (load_data_zero_rows_per_doc _ _ _ _ _ _ _
           [(VStr "Sheet1", [[Val "a"; Val "b"]])]);
    [reflexivity | reflexivity | discriminate].
Defined.

(** ** Rendering a batch *)

Lemma trimmed_lines (sep : string) (rows : list (list string)) :
  Forall (λ row, strip (join sep row) = join sep row) rows →
  strip <$> (join sep <$> rows) = join sep <$> rows.
Proof.
  induction 1 as [|row rest Hrow _ IH]; [done|].
  rewrite !fmap_cons. by rewrite Hrow, IH.
Qed.

(** C5, as stated, fails: in the batch of the rows ["a "] and ["b"] the
    loader also trims the first row's line, so the blank before the row
    joiner is lost, while trimming the whole string only would keep it. *)
Lemma render_trims_inside_the_batch :
  ExcelReader.render (ExcelReader.init None nl " " 2 2048) [["a "]; ["b"]]
    = "a" +:+ nl +:+ "b"
  ∧ spec_render (ExcelReader.init None nl " " 2 2048) [["a "]; ["b"]]
    = "a " +:+ nl +:+ "b".
Proof. split; reflexivity. Qed.

(** C5, amended: a batch is rendered by joining each row's cells with the
    column joiner, trimming each row's line, joining the lines with the row
    joiner and trimming the result; that text is what [split_text] gets.
    It is the whole-string-only trimming of the claim when no row's line
    starts or ends with whitespace, and when the batch has one row. *)
Theorem render_trims_rows_then_batch
    (split_text : string → Z → result (list string)) (self : ExcelReader.t)
    (file : Path) (include_sheetname : bool) (extra_info : gmap string value)
    (idx : Z) (key : value) (rows : list (list string)) (i : Z)
    (output : list Document) :
  let batch_rows := py_slice rows i (i + ExcelReader._rows_per_doc self) in
  let content :=
    strip (join (ExcelReader._row_joiner self)
                (strip <$> (join (ExcelReader._col_joiner self) <$> batch_rows))) in
  ExcelReader.load_batch split_text self file include_sheetname extra_info
    idx key rows i output
  = (segs ← split_text content (ExcelReader.max_words_per_page self);
     Ok (output ++ ExcelReader.batch_documents file include_sheetname extra_info
                     (ExcelReader.mkBatch idx key i batch_rows) segs))
  ∧ (Forall (λ row, strip (join (ExcelReader._col_joiner self) row)
                    = join (ExcelReader._col_joiner self) row) batch_rows →
     content = spec_render self batch_rows)
  ∧ ((length batch_rows ≤ 1)%nat → content = spec_render self batch_rows).
Proof.
  intros batch_rows content.
  assert (content = ExcelReader.render self batch_rows) as Hcontent.
  { unfold content, ExcelReader.render. by rewrite <- list_fmap_compose. }
  split; [|split].
  - rewrite load_batch_eq. unfold ExcelReader.split_batch. simpl.
    fold batch_rows. by rewrite <- Hcontent.
  - intros Hrows. unfold content, spec_render.
    by rewrite (trimmed_lines _ _ Hrows).
  - intros Hlen. unfold content, spec_render.
    destruct batch_rows as [|row [|row' rest]]; [done | | simpl in Hlen; lia].
    simpl. apply strip_idemp.
Qed.

Lemma render_trims_rows_then_batch_witness :
  ExcelReader.load_batch (SplitText.split_text (H := CharTokenizer.tokenizer))
    ExcelReader.default_reader book false ∅ 0 (VStr "Sheet1") [[" a"; "b "]] 0 []
  = Ok [ExcelReader.segment_document book false ∅ 0 (VStr "Sheet1") 0 [[" a"; "b "]]
          0 "a b"]
  ∧ strip (join nl (strip <$> (join " " <$> [[" a"; "b "]])))
    = spec_render ExcelReader.default_reader [[" a"; "b "]].
Proof.
  destruct (render_trims_rows_then_batch
              (SplitText.split_text (H := CharTokenizer.tokenizer))
              ExcelReader.default_reader book false ∅ 0 (VStr "Sheet1")
              [[" a"; "b "]] 0 []) as (Hload & _ & Hone).
  split.
  - rewrite Hload. reflexivity.
  - apply Hone. vm_compute. lia.
Defined.

(** ** Cleaning a sheet *)

Lemma cleaned_rows_filter (df : frame) :
  ExcelReader.cleaned_rows df
  = map cell_text <$> List.filter (λ row, negb (forallb isna row)) df.
Proof.
  unfold ExcelReader.cleaned_rows, values_astype_str, fillna_empty, dropna_all.
  rewrite map_map. apply map_ext. intros row. rewrite map_map.
  apply map_ext. by intros [|t].
Qed.

Lemma present_cells_not_empty (row : list cell) :
  Forall (λ c, c ≠ Val "") row →
  forallb (λ t, bool_decide (t = "")) (map cell_text row) = forallb isna row.
Proof.
  induction 1 as [|c row Hc _ IH]; [done|]. simpl. rewrite IH.
  destruct c as [|t]; [done|]. simpl.
  rewrite bool_decide_eq_false_2; [done | congruence].
Qed.

(** C4, as stated, fails: a row whose cells hold empty text (not missing
    values) is entirely empty after normalization, and the loader keeps
    it. *)
Lemma empty_text_row_is_kept :
  ExcelReader.cleaned_rows [ [Val ""; Val ""] ] = [ [""; ""] ]
  ∧ spec_cleaned_rows [ [Val ""; Val ""] ] = [].
Proof. split; reflexivity. Qed.

(** C4, amended: a row is excluded from the cleaned rows exactly when every
    one of its cells is missing in the parsed frame; kept rows keep their
    order, with missing cells as empty text. This is the rule of the claim
    for frames in which no cell holds the empty text. In the scenario, with
    the second row missing, default joiners, [rows_per_doc = 1] and a
    [split_text] that leaves the two short texts whole, exactly two
    documents are returned, for the cleaned rows (1,1) and (2,2), with the
    texts "a b" and "c d" (after the provenance line when
    [include_sheetname] is set). *)
Theorem missing_rows_are_dropped
    (split_text : string → Z → result (list string)) (pd : pandas) (file : Path)
    (include_sheetname : bool) (sheet_name : option sheet_selector) :
  (∀ df : frame,
     ExcelReader.cleaned_rows df
     = map cell_text <$> List.filter (λ row, negb (forallb isna row)) df)
  ∧ (∀ df : frame,
       Forall (Forall (λ c, c ≠ Val "")) df →
       ExcelReader.cleaned_rows df = spec_cleaned_rows df)
  ∧ (read_excel pd file (as_sheet_list sheet_name) ∅
       = Ok [(VStr "Sheet1", scenario_sheet)] →
     split_text "a b" 2048%Z = Ok ["a b"] →
     split_text "c d" 2048%Z = Ok ["c d"] →
     ExcelReader.load_data split_text ExcelReader.default_reader (Some pd) file
       include_sheetname sheet_name None
     = Ok [ {| text := if include_sheetname
                       then ExcelReader.with_sheetname (VStr "Sheet1") file "a b"
                       else "a b";
               metadata := scenario_metadata 1 |};
            {| text := if include_sheetname
                       then ExcelReader.with_sheetname (VStr "Sheet1") file "c d"
                       else "c d";
               metadata := scenario_metadata 2 |} ]).
Proof.
  split; [exact cleaned_rows_filter | split].
  - intros df Hdf. rewrite cleaned_rows_filter. unfold spec_cleaned_rows.
    induction Hdf as [|row df Hrow _ IH]; [done|].
    rewrite fmap_cons. simpl. rewrite (present_cells_not_empty row Hrow).
    destruct (forallb isna row); simpl; [exact IH | f_equal; exact IH].
  - intros Hread Hab Hcd.
    rewrite (load_data_eq _ _ _ _ _ _ _ [(VStr "Sheet1", scenario_sheet)])
      by done.
    change (ExcelReader.workbook_batches ExcelReader.default_reader
              [(VStr "Sheet1", scenario_sheet)])
      with [ExcelReader.mkBatch 0 (VStr "Sheet1") 0 [["a"; "b"]];
            ExcelReader.mkBatch 0 (VStr "Sheet1") 1 [["c"; "d"]]].
    rewrite !mapM_cons. unfold ExcelReader.split_batch.
    change (ExcelReader.render ExcelReader.default_reader
              (ExcelReader.b_rows (ExcelReader.mkBatch 0 (VStr "Sheet1") 0 [["a"; "b"]])))
      with "a b".
    change (ExcelReader.render ExcelReader.default_reader
              (ExcelReader.b_rows (ExcelReader.mkBatch 0 (VStr "Sheet1") 1 [["c"; "d"]])))
      with "c d".
    change (ExcelReader.max_words_per_page ExcelReader.default_reader) with 2048%Z.
    rewrite Hab, Hcd. simpl. by destruct include_sheetname.
Qed.

Lemma missing_rows_are_dropped_witness :
  load_data_chars ExcelReader.default_reader
    (Some (workbook [(VStr "Sheet1", scenario_sheet)])) book false None None
  = Ok [ {| text := "a b"; metadata := scenario_metadata 1 |};
         {| text := "c d"; metadata := scenario_metadata 2 |} ].
Proof.
  apply (missing_rows_are_dropped
           (SplitText.split_text (H := CharTokenizer.tokenizer))
           (workbook [(VStr "Sheet1", scenario_sheet)]) book false None);
    reflexivity.
Defined.

(** ** Batches *)

(** The batches of a sheet are the consecutive slices of its rows. *)
Lemma sheet_batches_slices (self : ExcelReader.t) (idx : Z) (key : value)
    (rows : list (list string)) :
  (1 ≤ ExcelReader._rows_per_doc self)%Z →
  let n := Z.to_nat (ExcelReader._rows_per_doc self) in
  let bs := ExcelReader.sheet_batches self idx key rows in
  concat (ExcelReader.b_rows <$> bs) = rows
  ∧ ∀ (k : nat) (b : ExcelReader.batch),
      bs !! k = Some b →
      ExcelReader.b_idx b = idx
      ∧ ExcelReader.b_key b = key
      ∧ ExcelReader.b_start b = Z.of_nat (k * n)
      ∧ ExcelReader.b_rows b = take n (drop (k * n) rows)
      ∧ (1 ≤ length (ExcelReader.b_rows b) ≤ n)%nat
      ∧ ((S k < length bs)%nat → length (ExcelReader.b_rows b) = n).
Proof.
  intros Hn n bs. split.
  - unfold bs, ExcelReader.sheet_batches. rewrite <- list_fmap_compose.
    apply (concat_range_slices rows (ExcelReader._rows_per_doc self)). lia.
  - intros k b Hb. unfold bs, ExcelReader.sheet_batches in Hb.
    rewrite list_lookup_fmap in Hb.
    apply fmap_Some in Hb as (i & Hi & ->). simpl.
    apply range_items_lookup in Hi as [-> Hk].
    pose proof Hk as Hlt.
    apply (range_length_pos (len rows) (ExcelReader._rows_per_doc self)) in Hlt;
      [|lia|unfold len; lia].
    assert (Z.to_nat (Z.of_nat k * ExcelReader._rows_per_doc self) = (k * n)%nat)
      as Hkn by (unfold n; lia).
    rewrite py_slice_take_drop by (unfold len in *; lia). rewrite Hkn. fold n.
    repeat split; try done.
    + unfold n. lia.
    + rewrite length_take, length_drop. unfold len, n in *. lia.
    + rewrite length_take. lia.
    + intros Hnext. unfold bs, ExcelReader.sheet_batches in Hnext.
      rewrite length_fmap, range_items_length in Hnext.
      apply (range_length_pos (len rows) (ExcelReader._rows_per_doc self)) in Hnext;
        [|lia|unfold len; lia].
      rewrite length_take, length_drop. unfold len, n in *. lia.
Qed.

Lemma workbook_batches_by_sheet (self : ExcelReader.t) (dfs : list (value * frame)) :
  ExcelReader.workbook_batches self dfs
  = concat (imap (λ idx kd,
                    ExcelReader.sheet_batches self (Z.of_nat idx) kd.1
                      (ExcelReader.cleaned_rows kd.2))
                 dfs).
Proof.
  unfold ExcelReader.workbook_batches.
  rewrite <- (enumerate_imap
                (λ i kd, ExcelReader.sheet_batches self i kd.1
                           (ExcelReader.cleaned_rows kd.2))).
  induction (enumerate dfs) as [|ikd ikds IH]; [done|].
  by rewrite bind_cons, fmap_cons, concat_cons, IH.
Qed.

(** A run in which [extra_info] names a row-number key. *)
Lemma row_key_run :
  load_data_chars ExcelReader.default_reader
    (Some (workbook [(VStr "Sheet1", [[Val "a"]])])) book false None
    (Some {[ "batch_start_row" := VInt 7 ]})
  = Ok [ {| text := "a";
            metadata :=
              dict_display [ ("page_label", VInt 1); ("sheet_name", VStr "Sheet1");
                             ("batch_start_row", VInt 7); ("batch_end_row", VInt 1);
                             ("content_index", VInt 1) ] |} ].
Proof. by vm_compute. Qed.

(** C6, as stated, fails for the recorded numbers: with
    [extra_info = {"batch_start_row": 7}] the document of the only batch,
    which holds one row, records [batch_start_row = 7] and
    [batch_end_row = 1], and 1 - 7 + 1 is not 1. *)
Lemma recorded_start_row_from_caller :
  load_data_chars ExcelReader.default_reader
    (Some (workbook [(VStr "Sheet1", [[Val "a"]])])) book false None
    (Some {[ "batch_start_row" := VInt 7 ]})
  = Ok [ {| text := "a";
            metadata :=
              dict_display [ ("page_label", VInt 1); ("sheet_name", VStr "Sheet1");
                             ("batch_start_row", VInt 7); ("batch_end_row", VInt 1);
                             ("content_index", VInt 1) ] |} ]
  ∧ ExcelReader.workbook_batches ExcelReader.default_reader
      [(VStr "Sheet1", [[Val "a"]])]
    = [ExcelReader.mkBatch 0 (VStr "Sheet1") 0 [["a"]]]
  ∧ (1 - 7 + 1)%Z ≠ len [["a"]].
Proof. split; [exact row_key_run | split; [reflexivity | discriminate]]. Qed.

(** C6, amended: with [rows_per_doc >= 1] the batches of each sheet are the
    consecutive slices of [rows_per_doc] cleaned rows, the last one possibly
    shorter and none empty; glued together they give the cleaned rows back,
    so no row is dropped or repeated. The row numbers the loader generates
    for a batch are the 1-based positions of its first and last row among
    the cleaned rows, and [batch_end_row - batch_start_row + 1] is its
    number of rows. Every document of the batch records them in its
    metadata, unless [extra_info] supplies the key. *)
Theorem batches_partition_cleaned_rows
    (split_text : string → Z → result (list string)) (self : ExcelReader.t)
    (env : option pandas) (file : Path) (include_sheetname : bool)
    (sheet_name : option sheet_selector) (extra_info : option (gmap string value))
    (out : list Document) :
  (1 ≤ ExcelReader._rows_per_doc self)%Z →
  ExcelReader.load_data split_text self env file include_sheetname sheet_name extra_info
    = Ok out →
  let n := Z.to_nat (ExcelReader._rows_per_doc self) in
  ∃ pd dfs segss,
    env = Some pd
    ∧ read_excel pd file (as_sheet_list sheet_name) (ExcelReader._pandas_config self)
      = Ok dfs
    ∧ length segss = length (ExcelReader.workbook_batches self dfs)
    ∧ out = concat (zip_with (ExcelReader.batch_documents file include_sheetname
                                (default ∅ extra_info))
                             (ExcelReader.workbook_batches self dfs) segss)
    ∧ ExcelReader.workbook_batches self dfs
      = concat (imap (λ idx kd,
                        ExcelReader.sheet_batches self (Z.of_nat idx) kd.1
                          (ExcelReader.cleaned_rows kd.2))
                     dfs)
    ∧ (∀ (idx : nat) key df,
         dfs !! idx = Some (key, df) →
         let rows := ExcelReader.cleaned_rows df in
         let bs := ExcelReader.sheet_batches self (Z.of_nat idx) key rows in
         concat (ExcelReader.b_rows <$> bs) = rows
         ∧ ∀ (k : nat) b,
             bs !! k = Some b →
             ExcelReader.b_rows b = take n (drop (k * n) rows)
             ∧ (1 ≤ length (ExcelReader.b_rows b) ≤ n)%nat
             ∧ ((S k < length bs)%nat → length (ExcelReader.b_rows b) = n)
             ∧ batch_start_row b = Z.of_nat (k * n + 1)
             ∧ batch_end_row b = Z.of_nat (k * n + length (ExcelReader.b_rows b))
             ∧ (batch_end_row b - batch_start_row b + 1)%Z
               = len (ExcelReader.b_rows b)
             ∧ ∀ (j : nat) row,
                 ExcelReader.b_rows b !! j = Some row →
                 rows !! Z.to_nat (batch_start_row b + Z.of_nat j - 1) = Some row)
    ∧ (∀ b segs d,
         d ∈ ExcelReader.batch_documents file include_sheetname
               (default ∅ extra_info) b segs →
         (default ∅ extra_info !! "batch_start_row" = None →
          metadata d !! "batch_start_row" = Some (VInt (batch_start_row b)))
         ∧ (default ∅ extra_info !! "batch_end_row" = None →
            metadata d !! "batch_end_row" = Some (VInt (batch_end_row b)))).
Proof.
  intros Hn (pd & dfs & segss & -> & Hread & Hsplit & ->)%load_data_Ok_inv n.
  exists pd, dfs, segss.
  split; [done|]. split; [done|].
  split; [symmetry; by eapply Forall2_length|]. split; [done|].
  split; [apply workbook_batches_by_sheet|]. split.
  - intros idx key df _ rows bs.
    destruct (sheet_batches_slices self (Z.of_nat idx) key rows Hn) as [Hcat Hbs].
    split; [exact Hcat|].
    intros k b Hb. destruct (Hbs k b Hb) as (_ & _ & Hstart & Hrows & Hlen & Hfull).
    fold n in Hstart, Hrows, Hlen, Hfull.
    unfold batch_start_row, batch_end_row, len. rewrite Hstart.
    repeat split; try done; try lia.
    intros j row Hj. rewrite Hrows in Hj.
    apply lookup_take_Some in Hj as [Hj _]. rewrite lookup_drop in Hj.
    rewrite <- Hj. f_equal. lia.
  - intros b segs d (c_i & c & _ & ->)%elem_of_batch_documents. simpl.
    rewrite !dict_update_lookup. split; by intros ->.
Qed.

Lemma batches_partition_cleaned_rows_witness :
  let self := ExcelReader.init None nl " " 2 2048 in
  let bs := ExcelReader.sheet_batches self 0 (VStr "Sheet1")
              (ExcelReader.cleaned_rows three_rows) in
  concat (ExcelReader.b_rows <$> bs) = ExcelReader.cleaned_rows three_rows
  ∧ (batch_start_row <$> bs) = [1%Z; 3%Z]
  ∧ (batch_end_row <$> bs) = [2%Z; 3%Z].
Proof.
  intros self bs.
  edestruct (batches_partition_cleaned_rows
               (SplitText.split_text (H := CharTokenizer.tokenizer)) self
               (Some (workbook [(VStr "Sheet1", three_rows)])) book true None None)
    as (pd & dfs & segss & Hpd & Hread & _ & _ & _ & Hsheets & _);
    [simpl; lia | reflexivity |].
  injection Hpd as <-. injection Hread as <-.
  destruct (Hsheets 0%nat (VStr "Sheet1") three_rows eq_refl) as [Hcat _].
  split; [exact Hcat | split; reflexivity].
Defined.

(** ** The legacy loader *)

Lemma foldl_snoc {X Y : Type} (f : X → Y) (xs : list X) (acc : list Y) :
  foldl (λ acc x, acc ++ [f x]) acc xs = acc ++ (f <$> xs).
Proof.
  revert acc. induction xs as [|x xs IH]; intros acc; simpl.
  - by rewrite app_nil_r.
  - rewrite IH. by rewrite <- app_assoc.
Qed.

Lemma dropna_all_idemp (df : frame) : dropna_all (dropna_all df) = dropna_all df.
Proof.
  unfold dropna_all. induction df as [|row df IH]; [done|]. simpl.
  destruct (negb (forallb isna row)) eqn:Hrow; simpl; [|done].
  by rewrite Hrow, IH.
Qed.

Lemma str_items_Ok (i : nat) (items : list value) (ss : list string) :
  str_items i items = Ok ss →
  ss = py_str <$> items ∧ Forall (λ v, ∃ s, v = VStr s) items.
Proof.
  revert i ss. induction items as [|[n|s] items IH]; intros i ss; simpl.
  - intros [= <-]. by split.
  - done.
  - intros (ss' & Hss' & [= <-])%result_bind_Ok.
    destruct (IH _ _ Hss') as [-> Hitems]. split; [done|].
    constructor; [by exists s | done].
Qed.

Lemma join_values_Ok (sep : string) (items : list value) (line : string) :
  join_values sep items = Ok line →
  line = join sep (py_str <$> items) ∧ Forall (λ v, ∃ s, v = VStr s) items.
Proof.
  unfold join_values.
  intros (ss & [-> Hitems]%str_items_Ok & [= <-])%result_bind_Ok. by split.
Qed.

Lemma sheet_lines_text (include_sheetname : bool) (key : value) (df : frame) :
  (λ vs : list value, py_str <$> vs)
    <$> PandasExcelReader.sheet_lines include_sheetname key df
  = (if include_sheetname then [[py_str key]] else [])
    ++ ExcelReader.cleaned_rows df.
Proof.
  unfold PandasExcelReader.sheet_lines, ExcelReader.cleaned_rows.
  rewrite dropna_all_idemp, fmap_app. f_equal.
  - by destruct include_sheetname.
  - rewrite <- list_fmap_compose. rewrite <- (list_fmap_id (values_astype_str _)) at 2.
    apply list_fmap_ext. intros _ row _. simpl.
    rewrite <- list_fmap_compose. by rewrite list_fmap_id.
Qed.

Lemma string_app_assoc (s1 s2 s3 : string) :
  (s1 +:+ s2) +:+ s3 = s1 +:+ (s2 +:+ s3).
Proof.
  induction s1 as [|c s1 IH]; [done|].
  change (String c ((s1 +:+ s2) +:+ s3) = String c (s1 +:+ (s2 +:+ s3))).
  by rewrite IH.
Qed.

Lemma join_app (sep : string) (l1 l2 : list string) :
  l1 ≠ [] → l2 ≠ [] →
  join sep (l1 ++ l2) = join sep l1 +:+ sep +:+ join sep l2.
Proof.
  intros H1 H2. induction l1 as [|x [|x' l1] IH]; [done| |].
  - destruct l2; [done|]. done.
  - change (join sep ((x :: x' :: l1) ++ l2))
      with (x +:+ sep +:+ join sep ((x' :: l1) ++ l2)).
    rewrite IH by done.
    change (join sep (x :: x' :: l1)) with (x +:+ sep +:+ join sep (x' :: l1)).
    by rewrite !string_app_assoc.
Qed.

(** Joining all lines is joining the texts of the groups of lines, as long
    as no group is empty. *)
Lemma join_concat (sep : string) (ls : list (list string)) :
  Forall (λ l, l ≠ []) ls →
  join sep (concat ls) = join sep (join sep <$> ls).
Proof.
  induction 1 as [|l ls Hl Hls IH]; [done|].
  rewrite concat_cons, fmap_cons. destruct ls as [|l' ls].
  - simpl. by rewrite app_nil_r.
  - rewrite join_app; [|done|].
    + rewrite IH. done.
    + apply Forall_cons in Hls as [Hl' _]. rewrite concat_cons.
      by destruct l'.
Qed.

Lemma str_items_VStr (i : nat) (ss : list string) :
  str_items i (VStr <$> ss) = Ok ss.
Proof.
  revert i. induction ss as [|s ss IH]; intros i; [done|].
  rewrite fmap_cons. simpl. by rewrite IH.
Qed.

Lemma join_rows_returns (sep : string) (rows : list (list string)) :
  mapM (join_values sep) ((λ row : list string, VStr <$> row) <$> rows)
  = Ok (join sep <$> rows).
Proof.
  induction rows as [|row rows IH]; [done|].
  rewrite !fmap_cons, mapM_cons, IH. unfold join_values.
  by rewrite str_items_VStr.
Qed.

Lemma sheet_lines_rows (include_sheetname : bool) (key : value) (df : frame) :
  PandasExcelReader.sheet_lines include_sheetname key df
  = (if include_sheetname then [[key]] else [])
    ++ ((λ row : list string, VStr <$> row) <$> ExcelReader.cleaned_rows df).
Proof.
  unfold PandasExcelReader.sheet_lines, ExcelReader.cleaned_rows.
  rewrite dropna_all_idemp. by destruct include_sheetname.
Qed.

Lemma legacy_lines_return (sep : string) (include_sheetname : bool)
    (dfs : list (value * frame)) :
  include_sheetname = false ∨ Forall (λ kd, ∃ s, kd.1 = VStr s) dfs →
  ∃ lines,
    mapM (join_values sep)
         (concat ((λ kd, PandasExcelReader.sheet_lines include_sheetname kd.1 kd.2)
                    <$> dfs))
    = Ok lines.
Proof.
  intros Hkeys. induction dfs as [|[key df] dfs IH]; [by eexists|].
  destruct IH as [lines IH].
  { destruct Hkeys as [?|[_ ?]%Forall_cons]; [by left | by right]. }
  rewrite fmap_cons, concat_cons, mapM_app, IH. cbn [fst snd].
  rewrite sheet_lines_rows, mapM_app, join_rows_returns.
  destruct include_sheetname; [|by eexists].
  destruct Hkeys as [?|[[s Hs] _]%Forall_cons]; [done|]. simpl in Hs. subst key.
  by eexists.
Qed.

(** What a call of the legacy loader that returns has gone through. *)
Lemma legacy_load_data_Ok_inv
    (self : PandasExcelReader.t) (env : option pandas) (file : Path)
    (include_sheetname : bool) (sheet_name : option sheet_selector)
    (extra_info : option (gmap string value)) (out : list Document) :
  PandasExcelReader.load_data self env file include_sheetname sheet_name extra_info
    = Ok out →
  ∃ pd dfs,
    env = Some pd
    ∧ read_excel pd file (as_sheet_list sheet_name)
        (PandasExcelReader._pandas_config self) = Ok dfs
    ∧ out = [ {| text :=
                   join (PandasExcelReader._row_joiner self)
                     (join (PandasExcelReader._col_joiner self)
                        <$> concat
                              ((λ kd, (if include_sheetname then [[py_str kd.1]] else [])
                                      ++ ExcelReader.cleaned_rows kd.2)
                                 <$> dfs));
                 metadata := default ∅ extra_info |} ]
    ∧ (Forall (λ kd, (if include_sheetname then [[py_str kd.1]] else [])
                     ++ ExcelReader.cleaned_rows kd.2 ≠ []) dfs →
       text <$> out
       = [ join (PandasExcelReader._row_joiner self)
             ((λ kd, join (PandasExcelReader._row_joiner self)
                       (join (PandasExcelReader._col_joiner self)
                          <$> (if include_sheetname then [[py_str kd.1]] else [])
                              ++ ExcelReader.cleaned_rows kd.2))
                <$> dfs) ])
    ∧ (include_sheetname = true → Forall (λ kd, ∃ s, kd.1 = VStr s) dfs).
Proof.
  unfold PandasExcelReader.load_data. intros Hload.
  destruct env as [pd|]; [|done]. simpl in Hload.
  apply result_bind_Ok in Hload as (dfs & Hread & Hload).
  apply result_bind_Ok in Hload as (lines & Hlines & [= <-]).
  exists pd, dfs. split; [done|]. split; [done|].
  rewrite (foldl_snoc (λ kd, PandasExcelReader.sheet_lines include_sheetname kd.1 kd.2))
    in Hlines.
  simpl in Hlines. apply mapM_Ok in Hlines.
  assert (lines = (λ vs, join (PandasExcelReader._col_joiner self) (py_str <$> vs))
                    <$> concat
                          ((λ kd, PandasExcelReader.sheet_lines include_sheetname kd.1 kd.2)
                             <$> dfs)
          ∧ Forall (Forall (λ v, ∃ s, v = VStr s))
                   (concat
                      ((λ kd, PandasExcelReader.sheet_lines include_sheetname kd.1 kd.2)
                         <$> dfs))) as [-> Hstr].
  { induction Hlines as [|vs line vss lines' Hline _ [IH1 IH2]]; [done|].
    apply join_values_Ok in Hline as [-> Hvs]. rewrite fmap_cons, IH1.
    split; [done | by constructor]. }
  assert ((λ vs, join (PandasExcelReader._col_joiner self) (py_str <$> vs))
            <$> concat
                  ((λ kd, PandasExcelReader.sheet_lines include_sheetname kd.1 kd.2)
                     <$> dfs)
          = concat
              ((λ kd, join (PandasExcelReader._col_joiner self)
                        <$> (if include_sheetname then [[py_str kd.1]] else [])
                            ++ ExcelReader.cleaned_rows kd.2)
                 <$> dfs)) as Hlines_eq.
  { clear Hstr Hlines Hread.
    induction dfs as [|[key df] dfs IH]; [done|].
    rewrite !fmap_cons, !concat_cons, !fmap_app, IH. f_equal. cbn [fst snd].
    rewrite <- fmap_app, <- sheet_lines_text. by rewrite <- list_fmap_compose. }
  split; [|split].
  - rewrite Hlines_eq. do 3 f_equal. clear.
    induction dfs as [|kd dfs IH]; [done|].
    by rewrite !fmap_cons, !concat_cons, IH, !fmap_app.
  - intros Hsheets. simpl. rewrite Hlines_eq. f_equal.
    rewrite join_concat.
    + by rewrite <- list_fmap_compose.
    + apply Forall_fmap. eapply Forall_impl; [exact Hsheets|].
      intros kd Hkd Hnil. apply Hkd. by apply fmap_nil_inv in Hnil.
  - intros ->. clear Hlines Hread Hlines_eq.
    induction dfs as [|[key df] dfs IH]; [constructor|].
    rewrite fmap_cons, concat_cons in Hstr.
    apply Forall_app in Hstr as [Hsheet Hrest].
    constructor; [|by apply IH].
    simpl in Hsheet. apply Forall_cons in Hsheet as [Hkey _].
    by apply Forall_cons in Hkey as [Hkey _].
Qed.

Lemma legacy_load_data_returns
    (self : PandasExcelReader.t) (pd : pandas) (file : Path)
    (include_sheetname : bool) (sheet_name : option sheet_selector)
    (extra_info : option (gmap string value)) (dfs : list (value * frame)) :
  read_excel pd file (as_sheet_list sheet_name) (PandasExcelReader._pandas_config self)
    = Ok dfs →
  include_sheetname = false ∨ Forall (λ kd, ∃ s, kd.1 = VStr s) dfs →
  ∃ doc,
    PandasExcelReader.load_data self (Some pd) file include_sheetname sheet_name
      extra_info = Ok [doc].
Proof.
  intros Hread Hkeys. unfold PandasExcelReader.load_data. simpl. rewrite Hread. simpl.
  rewrite (foldl_snoc (λ kd, PandasExcelReader.sheet_lines include_sheetname kd.1 kd.2)).
  simpl.
  destruct (legacy_lines_return (PandasExcelReader._col_joiner self)
              include_sheetname dfs Hkeys) as [lines ->].
  by eexists.
Qed.

(** [join] is the library's [concat] of strings. *)
Lemma join_is_concat (sep : string) (items : list string) :
  join sep items = Strings.String.concat sep items.
Proof.
  induction items as [|x [|y items] IH]; [done..|].
  change (x +:+ sep +:+ join sep (y :: items)
          = x +:+ sep +:+ Strings.String.concat sep (y :: items)).
  by rewrite IH.
Qed.

(** The cleaned rows, with nothing but library functions. *)
Lemma cleaned_rows_plain (df : frame) :
  ExcelReader.cleaned_rows df
  = map (λ c, match c with NaN => "" | Val t => t end)
      <$> List.filter
            (λ row, existsb (λ c, match c with NaN => false | Val _ => true end) row)
            df.
Proof.
  rewrite cleaned_rows_filter. f_equal.
  induction df as [|row df IH]; [done|]. simpl. rewrite IH.
  assert (negb (forallb isna row)
          = existsb (λ c, match c with NaN => false | Val _ => true end) row) as ->;
    [|done].
  clear. induction row as [|[|t] row IH]; [done| |done]. simpl. exact IH.
Qed.

(** C9: the legacy loader returns exactly when [pandas] is there, the
    workbook is read and, with [include_sheetname] set, every sheet key is a
    [str]; it then returns one document. The lines of its text are, sheet
    after sheet in source order, the sheet's key when [include_sheetname]
    is set, then one line per row that has a cell that is not missing: the
    texts of its cells, the empty text for a missing cell, joined with the
    column joiner. The text is these lines joined with the row joiner;
    when every sheet gives a line, that is the texts of the sheets joined
    with the row joiner. The metadata is [extra_info] (or the empty dict),
    nothing is recorded per sheet, and the rows kept are the cleaned rows
    of [ExcelReader]. *)
Theorem legacy_load_data_single_document
    (self : PandasExcelReader.t) (env : option pandas) (file : Path)
    (include_sheetname : bool) (sheet_name : option sheet_selector)
    (extra_info : option (gmap string value)) (out : list Document) :
  let rows_of (df : frame) : list (list string) :=
    map (λ c, match c with NaN => "" | Val t => t end)
      <$> List.filter
            (λ row, existsb (λ c, match c with NaN => false | Val _ => true end) row)
            df in
  let lines_of (kd : value * frame) : list string :=
    Strings.String.concat (PandasExcelReader._col_joiner self)
      <$> (if include_sheetname
           then [[match kd.1 with VStr s => s | VInt n => pretty n end]]
           else [])
          ++ rows_of kd.2 in
  (PandasExcelReader.load_data self env file include_sheetname sheet_name extra_info
     = Ok out
   ↔ ∃ pd dfs,
       env = Some pd
       ∧ read_excel pd file (as_sheet_list sheet_name)
           (PandasExcelReader._pandas_config self) = Ok dfs
       ∧ (include_sheetname = true → Forall (λ kd, ∃ s, kd.1 = VStr s) dfs)
       ∧ out = [ {| text :=
                      Strings.String.concat (PandasExcelReader._row_joiner self)
                        (concat (lines_of <$> dfs));
                    metadata := match extra_info with
                                | Some info => info
                                | None => ∅
                                end |} ])
  ∧ (∀ dfs,
       Forall (λ kd, lines_of kd ≠ []) dfs →
       Strings.String.concat (PandasExcelReader._row_joiner self)
         (concat (lines_of <$> dfs))
       = Strings.String.concat (PandasExcelReader._row_joiner self)
           ((λ kd, Strings.String.concat (PandasExcelReader._row_joiner self)
                     (lines_of kd)) <$> dfs))
  ∧ (∀ df, rows_of df = ExcelReader.cleaned_rows df).
Proof.
  intros rows_of lines_of.
  assert (∀ df, rows_of df = ExcelReader.cleaned_rows df) as Hrows.
  { intros df. unfold rows_of. by rewrite cleaned_rows_plain. }
  assert (∀ dfs,
            join (PandasExcelReader._row_joiner self)
              (join (PandasExcelReader._col_joiner self)
                 <$> concat ((λ kd, (if include_sheetname then [[py_str kd.1]] else [])
                                    ++ ExcelReader.cleaned_rows kd.2) <$> dfs))
            = Strings.String.concat (PandasExcelReader._row_joiner self)
                (concat (lines_of <$> dfs))) as Htext.
  { intros dfs. rewrite join_is_concat. f_equal.
    induction dfs as [|kd dfs IH]; [done|].
    rewrite !fmap_cons, !concat_cons, fmap_app, IH. f_equal.
    unfold lines_of. rewrite Hrows. apply list_fmap_ext.
    intros _ line _. apply join_is_concat. }
  split; [|split; [|exact Hrows]].
  - split.
    + intros (pd & dfs & -> & Hread & -> & _ & Hkeys)%legacy_load_data_Ok_inv.
      exists pd, dfs. split; [done|]. split; [done|]. split; [done|].
      rewrite Htext. by destruct extra_info.
    + intros (pd & dfs & -> & Hread & Hkeys & ->).
      destruct (legacy_load_data_returns self pd file include_sheetname sheet_name
                  extra_info dfs Hread) as [doc Hdoc].
      { destruct include_sheetname; [right; by apply Hkeys | by left]. }
      rewrite Hdoc.
      apply legacy_load_data_Ok_inv in Hdoc
        as (pd' & dfs' & [= <-] & Hread' & -> & _).
      rewrite Hread in Hread'. injection Hread' as <-.
      rewrite Htext. by destruct extra_info.
  - intros dfs Hlines. rewrite <- !join_is_concat.
    rewrite join_concat.
    + f_equal. rewrite <- list_fmap_compose. apply list_fmap_ext.
      intros _ kd _. simpl. apply join_is_concat.
    + by apply Forall_fmap.
Qed.

Lemma legacy_load_data_single_document_witness :
  PandasExcelReader.load_data (PandasExcelReader.init None nl " ")
    (Some (workbook [(VStr "S1", scenario_sheet); (VStr "S2", three_rows)]))
    book true None None
  = Ok [ {| text := "S1
a b
c d
S2
r1
r2
r3";
            metadata := ∅ |} ].
Proof.
  apply (proj1 (legacy_load_data_single_document (PandasExcelReader.init None nl " ")
                  (Some (workbook [(VStr "S1", scenario_sheet); (VStr "S2", three_rows)]))
                  book true None None _)).
  exists (workbook [(VStr "S1", scenario_sheet); (VStr "S2", three_rows)]),
         [(VStr "S1", scenario_sheet); (VStr "S2", three_rows)].
  split; [reflexivity|]. split; [reflexivity|]. split; [|reflexivity].
  intros _. repeat constructor; by eexists.
Defined.

(** ** The model of [split_text] *)

Lemma string_length_app (s1 s2 : string) :
  Strings.String.length (s1 +:+ s2)
  = (Strings.String.length s1 + Strings.String.length s2)%nat.
Proof. induction s1 as [|c s1 IH]; simpl; [done | by rewrite IH]. Qed.

Section Splitting.

Import SplitText.

Context {T : Tokenizer}.

Lemma decode_nil : decode [] = "".
Proof.
  pose proof (decode_app [] []) as H. simpl in H.
  apply (f_equal Strings.String.length) in H.
  rewrite string_length_app in H.
  destruct (decode []); [done | simpl in H; lia].
Qed.

Lemma encode_empty : encode "" = [].
Proof.
  pose proof (encode_decode_length []) as H. rewrite decode_nil in H.
  destruct (encode ""); [done | simpl in H; lia].
Qed.

Lemma concat_text_decode (chunks : list (list token)) :
  concat_text (decode <$> chunks) = decode (concat chunks).
Proof.
  induction chunks as [|ts chunks IH]; simpl.
  - by rewrite decode_nil.
  - by rewrite decode_app, <- IH.
Qed.

(** What a split that returns has done. *)
Lemma split_text_Ok (content : string) (max_tokens : Z) (segs : list string) :
  split_text content max_tokens = Ok segs →
  (encode content = [] ∧ segs = [])
  ∨ ((1 ≤ max_tokens)%Z
     ∧ segs = decode <$> ((λ i, py_slice (encode content) i (i + max_tokens))
                            <$> range_items 0 (len (encode content)) max_tokens)).
Proof.
  unfold split_text. destruct (encode content) as [|t ts] eqn:Htokens.
  - intros [= <-]. by left.
  - destruct (Z.ltb_spec max_tokens 1) as [?|Hmax]; [done|].
    intros [= <-]. right. split; [done|]. by rewrite <- list_fmap_compose.
Qed.

(** The split returns whenever the budget allows one token. *)
Lemma split_text_returns (content : string) (max_tokens : Z) :
  (1 ≤ max_tokens)%Z → ∃ segs, split_text content max_tokens = Ok segs.
Proof.
  intros Hmax. unfold split_text. destruct (encode content); [by eexists|].
  destruct (Z.ltb_spec max_tokens 1) as [?|_]; [lia | by eexists].
Qed.

Lemma split_text_concat (content : string) (max_tokens : Z) (segs : list string) :
  split_text content max_tokens = Ok segs → concat_text segs = content.
Proof.
  intros [[Hempty ->]|[Hmax ->]]%split_text_Ok.
  - simpl. by rewrite <- (decode_encode content), Hempty, decode_nil.
  - rewrite concat_text_decode, concat_range_slices by lia. apply decode_encode.
Qed.

Lemma split_text_budget (content : string) (max_tokens : Z) (segs : list string) :
  split_text content max_tokens = Ok segs →
  Forall (λ seg, (token_count seg ≤ max_tokens)%Z) segs.
Proof.
  intros [[_ ->]|[Hmax ->]]%split_text_Ok; [constructor|].
  apply Forall_fmap, Forall_fmap, Forall_lookup_2. intros k i Hi. simpl.
  apply range_items_lookup in Hi as [-> Hk].
  apply (range_length_pos (len (encode content)) max_tokens) in Hk;
    [|lia|unfold len; lia].
  unfold token_count.
  pose proof (encode_decode_length
                (py_slice (encode content) (Z.of_nat k * max_tokens)
                          (Z.of_nat k * max_tokens + max_tokens))) as Hre.
  assert (0 ≤ Z.of_nat k * max_tokens ≤ len (encode content))%Z as Hin.
  { unfold len in *. nia. }
  pose proof (py_slice_length (encode content) (Z.of_nat k * max_tokens) max_tokens
                Hin ltac:(lia)) as Hlen.
  unfold len in *. lia.
Qed.

Lemma split_text_empty (max_tokens : Z) : split_text "" max_tokens = Ok [].
Proof. unfold split_text. by rewrite encode_empty. Qed.

End Splitting.

(** ** Segments *)

Section Segments.

Import SplitText.

Context {T : Tokenizer}.

(** The documents of a batch carry its segments in order, each after the
    provenance line when [include_sheetname] is set. *)
Lemma batch_documents_text (file : Path) (include_sheetname : bool)
    (extra_info : gmap string value) (b : ExcelReader.batch) (segs : list string) :
  text <$> ExcelReader.batch_documents file include_sheetname extra_info b segs
  = (λ c, if include_sheetname
          then ExcelReader.with_sheetname (ExcelReader.b_key b) file c
          else c) <$> segs.
Proof.
  unfold ExcelReader.batch_documents. rewrite fmap_imap.
  rewrite <- (imap_const _ segs). by apply imap_ext.
Qed.

Lemma mapM_returns {X Y : Type} (g : X → result Y) (xs : list X) :
  (∀ x, ∃ y, g x = Ok y) → ∃ ys, mapM g xs = Ok ys.
Proof.
  intros Hg. induction xs as [|x xs [ys IH]]; [by eexists|].
  destruct (Hg x) as [y Hy]. exists (y :: ys).
  by rewrite mapM_cons, Hy, IH.
Qed.

(** With the model of [split_text] the call returns once the workbook is
    read, as long as the step is not zero and the budget allows a token. *)
Lemma load_data_returns (self : ExcelReader.t) (pd : pandas) (file : Path)
    (include_sheetname : bool) (sheet_name : option sheet_selector)
    (extra_info : option (gmap string value)) (dfs : list (value * frame)) :
  read_excel pd file (as_sheet_list sheet_name) (ExcelReader._pandas_config self)
    = Ok dfs →
  ExcelReader._rows_per_doc self ≠ 0%Z →
  (1 ≤ ExcelReader.max_words_per_page self)%Z →
  ∃ out,
    ExcelReader.load_data split_text self (Some pd) file include_sheetname sheet_name
      extra_info = Ok out.
Proof.
  intros Hread Hn Hmax. rewrite (load_data_eq _ _ _ _ _ _ _ dfs) by done.
  destruct (mapM_returns (ExcelReader.split_batch split_text self)
              (ExcelReader.workbook_batches self dfs)) as [segss ->].
  - intros b. by apply split_text_returns.
  - by eexists.
Qed.

(** C2: in a call that returns, the documents are those of the batches in
    order; the documents of a batch carry its segments in order (each after
    the provenance line when [include_sheetname] is set), and the segments
    of a batch, put together again, are exactly its rendered text. *)
Theorem segments_rebuild_content (self : ExcelReader.t) (env : option pandas)
    (file : Path) (include_sheetname : bool) (sheet_name : option sheet_selector)
    (extra_info : option (gmap string value)) (out : list Document) :
  ExcelReader.load_data split_text self env file include_sheetname sheet_name extra_info
    = Ok out →
  ∃ pd dfs segss,
    env = Some pd
    ∧ read_excel pd file (as_sheet_list sheet_name) (ExcelReader._pandas_config self)
      = Ok dfs
    ∧ out = concat (zip_with (ExcelReader.batch_documents file include_sheetname
                                (default ∅ extra_info))
                             (ExcelReader.workbook_batches self dfs) segss)
    ∧ Forall2
        (λ b segs,
           text <$> ExcelReader.batch_documents file include_sheetname
                      (default ∅ extra_info) b segs
           = (λ c, if include_sheetname
                   then ExcelReader.with_sheetname (ExcelReader.b_key b) file c
                   else c) <$> segs
           ∧ concat_text segs = ExcelReader.render self (ExcelReader.b_rows b))
        (ExcelReader.workbook_batches self dfs) segss.
Proof.
  intros (pd & dfs & segss & -> & Hread & Hsplit & ->)%load_data_Ok_inv.
  exists pd, dfs, segss. repeat split; try done.
  eapply Forall2_impl; [exact Hsplit|]. intros b segs Hb. split.
  - apply batch_documents_text.
  - by apply split_text_concat in Hb.
Qed.

(** C3: in a call that returns, every segment of every batch, as it is
    before a provenance line is put in front, counts at most
    [max_words_per_page] tokens. *)
Theorem segments_within_budget (self : ExcelReader.t) (env : option pandas)
    (file : Path) (include_sheetname : bool) (sheet_name : option sheet_selector)
    (extra_info : option (gmap string value)) (out : list Document) :
  ExcelReader.load_data split_text self env file include_sheetname sheet_name extra_info
    = Ok out →
  ∃ pd dfs segss,
    env = Some pd
    ∧ read_excel pd file (as_sheet_list sheet_name) (ExcelReader._pandas_config self)
      = Ok dfs
    ∧ out = concat (zip_with (ExcelReader.batch_documents file include_sheetname
                                (default ∅ extra_info))
                             (ExcelReader.workbook_batches self dfs) segss)
    ∧ Forall2
        (λ b segs,
           Forall (λ seg, (token_count seg ≤ ExcelReader.max_words_per_page self)%Z)
                  segs)
        (ExcelReader.workbook_batches self dfs) segss.
Proof.
  intros (pd & dfs & segss & -> & Hread & Hsplit & ->)%load_data_Ok_inv.
  exists pd, dfs, segss. repeat split; try done.
  eapply Forall2_impl; [exact Hsplit|]. intros b segs Hb.
  by apply split_text_budget in Hb.
Qed.

(** C7: a batch whose rendered text is empty gets no segment: its turn of
    the loop leaves the output as it is, and in a call that returns it
    contributes no document. *)
Theorem empty_batch_no_documents (self : ExcelReader.t) (env : option pandas)
    (file : Path) (include_sheetname : bool) (sheet_name : option sheet_selector)
    (extra_info : option (gmap string value)) (out : list Document) :
  ExcelReader.load_data split_text self env file include_sheetname sheet_name extra_info
    = Ok out →
  (∀ idx key rows i output,
     ExcelReader.render self (py_slice rows i (i + ExcelReader._rows_per_doc self)) = "" →
     ExcelReader.load_batch split_text self file include_sheetname
       (default ∅ extra_info) idx key rows i output
     = Ok output)
  ∧ ∃ pd dfs segss,
      env = Some pd
      ∧ read_excel pd file (as_sheet_list sheet_name) (ExcelReader._pandas_config self)
        = Ok dfs
      ∧ out = concat (zip_with (ExcelReader.batch_documents file include_sheetname
                                  (default ∅ extra_info))
                               (ExcelReader.workbook_batches self dfs) segss)
      ∧ Forall2
          (λ b segs,
             ExcelReader.render self (ExcelReader.b_rows b) = "" →
             segs = []
             ∧ ExcelReader.batch_documents file include_sheetname
                 (default ∅ extra_info) b segs = [])
          (ExcelReader.workbook_batches self dfs) segss.
Proof.
  intros (pd & dfs & segss & -> & Hread & Hsplit & ->)%load_data_Ok_inv. split.
  - intros idx key rows i output Hempty. rewrite load_batch_eq.
    unfold ExcelReader.split_batch. simpl. rewrite Hempty, split_text_empty.
    simpl. by rewrite app_nil_r.
  - exists pd, dfs, segss. repeat split; try done.
    eapply Forall2_impl; [exact Hsplit|]. intros b segs Hb Hempty.
    unfold ExcelReader.split_batch in Hb. rewrite Hempty, split_text_empty in Hb.
    by injection Hb as <-.
Qed.

End Segments.

Lemma long_row_run :
  load_data_chars two_token_reader (Some (workbook long_row_sheets)) book false
    None None
  = Ok long_row_documents.
Proof. by vm_compute. Qed.

Lemma segments_rebuild_content_witness :
  ∃ segss,
    long_row_documents
    = concat (zip_with (ExcelReader.batch_documents book false ∅)
                       (ExcelReader.workbook_batches two_token_reader long_row_sheets)
                       segss)
    ∧ Forall2
        (λ b segs,
           text <$> ExcelReader.batch_documents book false ∅ b segs = id <$> segs
           ∧ SplitText.concat_text segs
             = ExcelReader.render two_token_reader (ExcelReader.b_rows b))
        (ExcelReader.workbook_batches two_token_reader long_row_sheets) segss.
Proof.
  destruct (segments_rebuild_content (T := CharTokenizer.tokenizer) two_token_reader
              (Some (workbook long_row_sheets)) book false None None
              long_row_documents long_row_run)
    as (pd & dfs & segss & Hpd & Hread & Hout & Hall).
  injection Hpd as <-. injection Hread as <-.
  exists segss. split; [exact Hout | exact Hall].
Defined.

Lemma segments_within_budget_witness :
  ∃ segss,
    long_row_documents
    = concat (zip_with (ExcelReader.batch_documents book false ∅)
                       (ExcelReader.workbook_batches two_token_reader long_row_sheets)
                       segss)
    ∧ Forall2
        (λ _ segs,
           Forall (λ seg, (SplitText.token_count (H := CharTokenizer.tokenizer) seg ≤ 2)%Z)
                  segs)
        (ExcelReader.workbook_batches two_token_reader long_row_sheets) segss.
Proof.
  destruct (segments_within_budget (T := CharTokenizer.tokenizer) two_token_reader
              (Some (workbook long_row_sheets)) book false None None
              long_row_documents long_row_run)
    as (pd & dfs & segss & Hpd & Hread & Hout & Hall).
  injection Hpd as <-. injection Hread as <-.
  exists segss. split; [exact Hout | exact Hall].
Defined.

Lemma empty_batch_no_documents_witness :
  ExcelReader.load_batch (SplitText.split_text (H := CharTokenizer.tokenizer))
    two_token_reader book false ∅ 0 (VStr "Sheet1") [["abc"]; [" "]] 1
    long_row_documents
  = Ok long_row_documents.
Proof.
  destruct (empty_batch_no_documents (T := CharTokenizer.tokenizer) two_token_reader
              (Some (workbook long_row_sheets)) book false None None
              long_row_documents long_row_run)
    as [Hturn _].
  apply Hturn. reflexivity.
Defined.

(** * Further properties of the loaders *)

(** ** Calls that yield no document *)

Lemma range_items_nil (stop step : Z) :
  (0 ≤ stop)%Z → (step < 0 ∨ stop = 0)%Z → range_items 0 stop step = [].
Proof.
  intros Hstop Hcase. unfold range_items, range_length.
  destruct (Z.ltb_spec 0 step), (Z.ltb_spec 0 stop), (Z.ltb_spec stop 0);
    try lia; done.
Qed.

Lemma workbook_batches_nil (self : ExcelReader.t) (dfs : list (value * frame)) :
  Forall (λ kd, (ExcelReader._rows_per_doc self < 0)%Z
                ∨ ExcelReader.cleaned_rows kd.2 = []) dfs →
  ExcelReader.workbook_batches self dfs = [].
Proof.
  intros Hdfs. rewrite workbook_batches_by_sheet.
  assert (∀ k, imap (λ idx kd,
                       ExcelReader.sheet_batches self (Z.of_nat (k + idx)) kd.1
                         (ExcelReader.cleaned_rows kd.2)) dfs
               = (λ _, []) <$> dfs) as Himap.
  { induction Hdfs as [|kd dfs Hkd _ IH]; intros k; [done|].
    rewrite imap_cons, fmap_cons. f_equal.
    - unfold ExcelReader.sheet_batches. rewrite range_items_nil; [done|unfold len; lia|].
      destruct Hkd as [?| ->]; [by left | by right].
    - rewrite <- (IH (S k)). apply imap_ext. intros i kd' _. simpl.
      do 3 f_equal. lia. }
  pose proof (Himap 0%nat) as H0. cbn [Nat.add] in H0. rewrite H0.
  clear. induction dfs as [|kd dfs IH]; [done|].
  by rewrite fmap_cons, concat_cons, IH.
Qed.

(** X1: a negative [rows_per_doc] makes every range over the rows empty:
    once the workbook is read the call returns the empty list, whatever the
    sheets hold, and [split_text] is not called. *)
Theorem load_data_negative_rows_per_doc
    (split_text : string → Z → result (list string)) (self : ExcelReader.t)
    (pd : pandas) (file : Path) (include_sheetname : bool)
    (sheet_name : option sheet_selector) (extra_info : option (gmap string value))
    (dfs : list (value * frame)) :
  (ExcelReader._rows_per_doc self < 0)%Z →
  read_excel pd file (as_sheet_list sheet_name) (ExcelReader._pandas_config self)
    = Ok dfs →
  ExcelReader.load_data split_text self (Some pd) file include_sheetname sheet_name
    extra_info
  = Ok [].
Proof.
  intros Hn Hread. rewrite (load_data_eq _ _ _ _ _ _ _ dfs) by (done || lia).
  rewrite workbook_batches_nil; [done|].
  apply Forall_forall. intros kd _. by left.
Qed.

Lemma load_data_negative_rows_per_doc_witness :
  ExcelReader.load_data (λ _ _, Raise (OtherError "RuntimeError" "not to be called"))
    (ExcelReader.init None nl " " (-2) 2048)
    (Some (workbook [(VStr "Sheet1", three_rows)])) book true None None
  = Ok [].
Proof.
  apply (load_data_negative_rows_per_doc _ _ _ _ _ _ _
           [(VStr "Sheet1", three_rows)]); [simpl; lia | reflexivity].
Defined.

(** X2: sheets whose rows are all missing throughout give no batch: when
    the step is not zero, a workbook of such sheets (or of sheets without
    rows) loads to the empty list and [split_text] is not called; a workbook
    without sheets does so for every step, zero included. *)
Theorem load_data_no_rows
    (split_text : string → Z → result (list string)) (self : ExcelReader.t)
    (pd : pandas) (file : Path) (include_sheetname : bool)
    (sheet_name : option sheet_selector) (extra_info : option (gmap string value))
    (dfs : list (value * frame)) :
  read_excel pd file (as_sheet_list sheet_name) (ExcelReader._pandas_config self)
    = Ok dfs →
  Forall (λ kd, Forall (λ row, Forall (λ c, c = NaN) row) kd.2) dfs →
  dfs = [] ∨ ExcelReader._rows_per_doc self ≠ 0%Z →
  ExcelReader.load_data split_text self (Some pd) file include_sheetname sheet_name
    extra_info
  = Ok [].
Proof.
  intros Hread Hmissing [-> | Hn].
  - unfold ExcelReader.load_data. simpl. by rewrite Hread.
  - rewrite (load_data_eq _ _ _ _ _ _ _ dfs) by done.
    rewrite workbook_batches_nil; [done|].
    eapply Forall_impl; [exact Hmissing|]. intros [key df] Hdf. right. simpl in *.
    rewrite cleaned_rows_filter.
    induction Hdf as [|row df Hrow _ IH]; [done|]. simpl.
    assert (forallb isna row = true) as ->; [|exact IH].
    apply forallb_forall. intros c Hc%list_elem_of_In.
    rewrite Forall_forall in Hrow. by rewrite (Hrow c Hc).
Qed.

Lemma load_data_no_rows_witness :
  ExcelReader.load_data (λ _ _, Raise (OtherError "RuntimeError" "not to be called"))
    ExcelReader.default_reader
    (Some (workbook [(VStr "Sheet1", [[NaN; NaN]; [NaN; NaN]]); (VStr "Sheet2", [])]))
    book true None None
  = Ok [].
Proof.
  apply (load_data_no_rows _ _ _ _ _ _ _
           [(VStr "Sheet1", [[NaN; NaN]; [NaN; NaN]]); (VStr "Sheet2", [])]).
  - reflexivity.
  - repeat constructor.
  - right. discriminate.
Defined.

(** ** How many batches, how many documents *)

(** X3: with [rows_per_doc = n >= 1] a sheet of [len] cleaned rows is cut
    into [(len + n - 1) / n] batches, the ceiling of [len / n]; a sheet of
    at most [n] rows (and at least one) is one batch that holds all its
    rows, numbered from 1 to [len]. *)
Theorem sheet_batches_count (self : ExcelReader.t) (idx : Z) (key : value)
    (rows : list (list string)) :
  (1 ≤ ExcelReader._rows_per_doc self)%Z →
  len (ExcelReader.sheet_batches self idx key rows)
  = ((len rows + ExcelReader._rows_per_doc self - 1) / ExcelReader._rows_per_doc self)%Z
  ∧ ((1 ≤ len rows ≤ ExcelReader._rows_per_doc self)%Z →
     ExcelReader.sheet_batches self idx key rows = [ExcelReader.mkBatch idx key 0 rows]
     ∧ batch_start_row (ExcelReader.mkBatch idx key 0 rows) = 1%Z
     ∧ batch_end_row (ExcelReader.mkBatch idx key 0 rows) = len rows).
Proof.
  intros Hn. set (n := ExcelReader._rows_per_doc self) in *.
  assert (len (ExcelReader.sheet_batches self idx key rows)
          = range_length 0 (len rows) n) as Hlen.
  { unfold ExcelReader.sheet_batches, len at 1.
    rewrite length_fmap, range_items_length. fold n.
    unfold range_length, len.
    destruct (Z.ltb_spec 0 n); [|lia].
    destruct (Z.ltb_spec 0 (Z.of_nat (length rows))); [|lia].
    pose proof (Z.div_pos (Z.of_nat (length rows) - 0 - 1) n). lia. }
  split.
  - rewrite Hlen. unfold range_length, len.
    destruct (Z.ltb_spec 0 n); [|lia].
    destruct (Z.ltb_spec 0 (Z.of_nat (length rows))).
    + replace (Z.of_nat (length rows) + n - 1)%Z
        with (Z.of_nat (length rows) - 0 - 1 + 1 * n)%Z by lia.
      rewrite Z.div_add by lia. done.
    + replace (Z.of_nat (length rows)) with 0%Z by lia.
      symmetry. apply Z.div_small. lia.
  - intros Hrows. split; [|split; [done | unfold batch_end_row; simpl; lia]].
    unfold ExcelReader.sheet_batches, range_items. fold n.
    assert (range_length 0 (len rows) n = 1%Z) as ->.
    { unfold range_length. destruct (Z.ltb_spec 0 n); [|lia].
      destruct (Z.ltb_spec 0 (len rows)); [|lia].
      rewrite Z.div_small; lia. }
    simpl. do 2 f_equal.
    rewrite py_slice_take_drop by lia. simpl. rewrite drop_0.
    apply take_ge. unfold len in *. lia.
Qed.

Lemma sheet_batches_count_witness :
  len (ExcelReader.sheet_batches (ExcelReader.init None nl " " 2 2048) 0
         (VStr "Sheet1") (ExcelReader.cleaned_rows three_rows))
  = ((3 + 2 - 1) / 2)%Z.
Proof.
  apply (sheet_batches_count (ExcelReader.init None nl " " 2 2048) 0 (VStr "Sheet1")
           (ExcelReader.cleaned_rows three_rows)).
  simpl. lia.
Defined.

Lemma concat_zip_with_fmap {B S D E : Type} (f : B → S → list D) (g : D → E)
    (bs : list B) (ss : list S) :
  g <$> concat (zip_with f bs ss) = concat (zip_with (λ b s, g <$> f b s) bs ss).
Proof.
  revert ss. induction bs as [|b bs IH]; intros [|s ss]; try done.
  simpl. by rewrite fmap_app, IH.
Qed.

Lemma concat_zip_with_length {B S D : Type} (f : B → list S → list D)
    (bs : list B) (ss : list (list S)) :
  (∀ b s, length (f b s) = length s) →
  length bs = length ss →
  length (concat (zip_with f bs ss)) = sum_list (length <$> ss).
Proof.
  intros Hf. revert ss. induction bs as [|b bs IH]; intros [|s ss] Hlen; try done.
  simpl. rewrite length_app, Hf, IH; [done|]. simpl in Hlen. lia.
Qed.

(** X4: whatever [split_text] is, a call that returns has called it once
    per batch, in order, on the rendered text of the batch, and returns one
    document per segment it gave: the texts of the documents are those
    segments, unchanged and in order, each after the provenance line of its
    sheet when [include_sheetname] is set. *)
Theorem documents_are_the_segments
    (split_text : string → Z → result (list string)) (self : ExcelReader.t)
    (env : option pandas) (file : Path) (include_sheetname : bool)
    (sheet_name : option sheet_selector) (extra_info : option (gmap string value))
    (out : list Document) :
  ExcelReader.load_data split_text self env file include_sheetname sheet_name extra_info
    = Ok out →
  ∃ pd dfs segss,
    env = Some pd
    ∧ read_excel pd file (as_sheet_list sheet_name) (ExcelReader._pandas_config self)
      = Ok dfs
    ∧ Forall2 (λ b segs,
                 split_text (ExcelReader.render self (ExcelReader.b_rows b))
                            (ExcelReader.max_words_per_page self) = Ok segs)
              (ExcelReader.workbook_batches self dfs) segss
    ∧ text <$> out
      = concat (zip_with
                  (λ b segs,
                     (λ c, if include_sheetname
                           then ExcelReader.with_sheetname (ExcelReader.b_key b) file c
                           else c) <$> segs)
                  (ExcelReader.workbook_batches self dfs) segss)
    ∧ length out = sum_list (length <$> segss).
Proof.
  intros (pd & dfs & segss & -> & Hread & Hsplit & ->)%load_data_Ok_inv.
  exists pd, dfs, segss. split; [done|]. split; [done|]. split; [exact Hsplit|].
  split.
  - rewrite concat_zip_with_fmap. f_equal.
    apply zip_with_ext; [|done..]. intros b segs. apply batch_documents_text.
  - apply concat_zip_with_length.
    + intros b segs. unfold ExcelReader.batch_documents. apply length_imap.
    + by eapply Forall2_length.
Qed.

Lemma documents_are_the_segments_witness :
  ∃ segss,
    Forall2 (λ b segs,
               SplitText.split_text (H := CharTokenizer.tokenizer)
                 (ExcelReader.render two_token_reader (ExcelReader.b_rows b)) 2 = Ok segs)
            (ExcelReader.workbook_batches two_token_reader long_row_sheets) segss
    ∧ text <$> long_row_documents
      = concat (zip_with (λ _ segs, id <$> segs)
                  (ExcelReader.workbook_batches two_token_reader long_row_sheets) segss)
    ∧ length long_row_documents = sum_list (length <$> segss).
Proof.
  destruct (documents_are_the_segments
              (SplitText.split_text (H := CharTokenizer.tokenizer)) two_token_reader
              (Some (workbook long_row_sheets)) book false None None
              long_row_documents long_row_run)
    as (pd & dfs & segss & Hpd & Hread & Hsplit & Htext & Hlen).
  injection Hpd as <-. injection Hread as <-.
  exists segss. split; [exact Hsplit | split; [exact Htext | exact Hlen]].
Defined.

(** ** What the metadata says *)

Lemma workbook_batches_sheet (self : ExcelReader.t) (dfs : list (value * frame))
    (b : ExcelReader.batch) :
  b ∈ ExcelReader.workbook_batches self dfs →
  ∃ (idx : nat) (df : frame),
    dfs !! idx = Some (ExcelReader.b_key b, df)
    ∧ ExcelReader.b_idx b = Z.of_nat idx.
Proof.
  unfold ExcelReader.workbook_batches.
  intros ([i [key df]] & Hb & Hikd)%list_elem_of_bind.
  apply list_elem_of_lookup in Hikd as [idx Hidx].
  unfold enumerate in Hidx. rewrite list_lookup_imap in Hidx.
  destruct (dfs !! idx) as [[key' df']|] eqn:Hdf; [|done].
  injection Hidx as <- <- <-.
  unfold ExcelReader.sheet_batches in Hb. simpl in Hb.
  apply list_elem_of_fmap in Hb as (start & -> & _). simpl.
  by exists idx, df'.
Qed.

(** X5: in a call that returns, the document of segment [j] (counted from
    0) of a batch records [content_index = j + 1], and for a batch of the
    sheet at position [idx] (counted from 0) with key [key] it records
    [page_label = idx + 1] and [sheet_name = key]; each of the three holds
    unless [extra_info] supplies that key. *)
Theorem documents_are_numbered
    (split_text : string → Z → result (list string)) (self : ExcelReader.t)
    (env : option pandas) (file : Path) (include_sheetname : bool)
    (sheet_name : option sheet_selector) (extra_info : option (gmap string value))
    (out : list Document) :
  ExcelReader.load_data split_text self env file include_sheetname sheet_name extra_info
    = Ok out →
  ∃ pd dfs segss,
    env = Some pd
    ∧ read_excel pd file (as_sheet_list sheet_name) (ExcelReader._pandas_config self)
      = Ok dfs
    ∧ out = concat (zip_with (ExcelReader.batch_documents file include_sheetname
                                (default ∅ extra_info))
                             (ExcelReader.workbook_batches self dfs) segss)
    ∧ ∀ (k : nat) b segs (j : nat) d,
        ExcelReader.workbook_batches self dfs !! k = Some b →
        segss !! k = Some segs →
        ExcelReader.batch_documents file include_sheetname (default ∅ extra_info)
          b segs !! j = Some d →
        ∃ (idx : nat) df,
          dfs !! idx = Some (ExcelReader.b_key b, df)
          ∧ (default ∅ extra_info !! "page_label" = None →
             metadata d !! "page_label" = Some (VInt (Z.of_nat idx + 1)))
          ∧ (default ∅ extra_info !! "sheet_name" = None →
             metadata d !! "sheet_name" = Some (ExcelReader.b_key b))
          ∧ (default ∅ extra_info !! "content_index" = None →
             metadata d !! "content_index" = Some (VInt (Z.of_nat j + 1))).
Proof.
  intros (pd & dfs & segss & -> & Hread & Hsplit & ->)%load_data_Ok_inv.
  exists pd, dfs, segss. split; [done|]. split; [done|]. split; [done|].
  intros k b segs j d Hb _ Hd.
  destruct (workbook_batches_sheet self dfs b) as (idx & df & Hdf & Hidx).
  { apply list_elem_of_lookup. by exists k. }
  exists idx, df. split; [done|].
  unfold ExcelReader.batch_documents in Hd. rewrite list_lookup_imap in Hd.
  destruct (segs !! j) as [c|]; [|done]. injection Hd as <-. simpl.
  rewrite !dict_update_lookup, Hidx. by repeat split; intros ->.
Qed.

Lemma documents_are_numbered_witness :
  ∃ segss,
    long_row_documents
    = concat (zip_with (ExcelReader.batch_documents book false ∅)
                       (ExcelReader.workbook_batches two_token_reader long_row_sheets)
                       segss)
    ∧ ∀ (k : nat) b segs (j : nat) d,
        ExcelReader.workbook_batches two_token_reader long_row_sheets !! k = Some b →
        segss !! k = Some segs →
        ExcelReader.batch_documents book false ∅ b segs !! j = Some d →
        ∃ (idx : nat) df,
          long_row_sheets !! idx = Some (ExcelReader.b_key b, df)
          ∧ ((∅ : gmap string value) !! "page_label" = None →
             metadata d !! "page_label" = Some (VInt (Z.of_nat idx + 1)))
          ∧ ((∅ : gmap string value) !! "sheet_name" = None →
             metadata d !! "sheet_name" = Some (ExcelReader.b_key b))
          ∧ ((∅ : gmap string value) !! "content_index" = None →
             metadata d !! "content_index" = Some (VInt (Z.of_nat j + 1))).
Proof.
  destruct (documents_are_numbered
              (SplitText.split_text (H := CharTokenizer.tokenizer)) two_token_reader
              (Some (workbook long_row_sheets)) book false None None
              long_row_documents long_row_run)
    as (pd & dfs & segss & Hpd & Hread & Hout & Hnum).
  injection Hpd as <-. injection Hread as <-.
  exists segss. split; [exact Hout | exact Hnum].
Defined.

(** X6: the metadata of a returned document has the five generated keys and
    the keys of [extra_info], and no other key. *)
Theorem metadata_keys
    (split_text : string → Z → result (list string)) (self : ExcelReader.t)
    (env : option pandas) (file : Path) (include_sheetname : bool)
    (sheet_name : option sheet_selector) (extra_info : option (gmap string value))
    (out : list Document) (d : Document) :
  ExcelReader.load_data split_text self env file include_sheetname sheet_name extra_info
    = Ok out →
  d ∈ out →
  dom (metadata d)
  = list_to_set ["page_label"; "sheet_name"; "batch_start_row"; "batch_end_row";
                 "content_index"]
    ∪ dom (default ∅ extra_info).
Proof.
  intros (pd & dfs & segss & _ & _ & _ & ->)%load_data_Ok_inv Hd.
  apply elem_of_concat_zip_with in Hd as (n & b & segs & _ & _ & Hd).
  apply elem_of_batch_documents in Hd as (c_i & c & _ & ->). simpl.
  unfold dict_update, dict_display, ExcelReader.generated_items. simpl.
  rewrite dom_union_L, !dom_insert_L, dom_empty_L. simpl list_to_set.
  apply set_eq. intros k.
  rewrite !elem_of_union, !elem_of_singleton, elem_of_empty. tauto.
Qed.

Lemma metadata_keys_witness :
  dom (<[ "page_label" := VStr "x" ]>
         (dict_display (ExcelReader.generated_items 0 (VStr "Sheet1") 0 [["a"]] 0)))
  = list_to_set ["page_label"; "sheet_name"; "batch_start_row"; "batch_end_row";
                 "content_index"]
    ∪ dom ({[ "page_label" := VStr "x" ]} : gmap string value).
Proof.
  pose proof (metadata_keys (SplitText.split_text (H := CharTokenizer.tokenizer))
                ExcelReader.default_reader
                (Some (workbook [(VStr "Sheet1", [[Val "a"]])])) book false None
                (Some {[ "page_label" := VStr "x" ]}) _ _ colliding_key_run
                ltac:(apply list_elem_of_singleton; reflexivity)) as Hkeys.
  exact Hkeys.
Defined.

(** ** Exceptions of the collaborators *)

Lemma mapM_raises {X Y : Type} (g : X → result Y) (pre post : list X) (x : X)
    (e : exn) :
  Forall (λ x', ∃ y, g x' = Ok y) pre →
  g x = Raise e →
  mapM g (pre ++ x :: post) = Raise e.
Proof.
  intros Hpre Hx. induction Hpre as [|x' pre [y Hy] _ IH].
  - simpl app. by rewrite mapM_cons, Hx.
  - rewrite <- app_comm_cons, mapM_cons, Hy, IH. done.
Qed.

(** X7: [ExcelReader.load_data] catches nothing. An exception of
    [read_excel] is the outcome of the call. With the workbook read and a
    step that is not zero, the batches are split in order, and the
    exception of the first batch on which [split_text] raises is the
    outcome of the call: the documents made so far are not returned. *)
Theorem load_data_raises
    (split_text : string → Z → result (list string)) (self : ExcelReader.t)
    (pd : pandas) (file : Path) (include_sheetname : bool)
    (sheet_name : option sheet_selector) (extra_info : option (gmap string value))
    (e : exn) :
  (read_excel pd file (as_sheet_list sheet_name) (ExcelReader._pandas_config self)
     = Raise e →
   ExcelReader.load_data split_text self (Some pd) file include_sheetname sheet_name
     extra_info = Raise e)
  ∧ (∀ dfs pre b post,
       read_excel pd file (as_sheet_list sheet_name) (ExcelReader._pandas_config self)
         = Ok dfs →
       ExcelReader._rows_per_doc self ≠ 0%Z →
       ExcelReader.workbook_batches self dfs = pre ++ b :: post →
       Forall (λ b', ∃ segs,
                 split_text (ExcelReader.render self (ExcelReader.b_rows b'))
                            (ExcelReader.max_words_per_page self) = Ok segs) pre →
       split_text (ExcelReader.render self (ExcelReader.b_rows b))
                  (ExcelReader.max_words_per_page self) = Raise e →
       ExcelReader.load_data split_text self (Some pd) file include_sheetname
         sheet_name extra_info = Raise e).
Proof.
  split.
  - intros Hread. unfold ExcelReader.load_data. simpl. by rewrite Hread.
  - intros dfs pre b post Hread Hn Hbs Hpre Hb.
    rewrite (load_data_eq _ _ _ _ _ _ _ dfs) by done.
    rewrite Hbs, (mapM_raises _ pre post b e); done.
Qed.

Lemma load_data_raises_witness :
  ExcelReader.load_data short_texts_only ExcelReader.default_reader
    (Some (workbook [(VStr "Sheet1", [[Val "ab"]; [Val "abcd"]; [Val "c"]])]))
    book true None None
  = Raise (ValueError "too long").
Proof.
  destruct (load_data_raises short_texts_only ExcelReader.default_reader
              (workbook [(VStr "Sheet1", [[Val "ab"]; [Val "abcd"]; [Val "c"]])])
              book true None None (ValueError "too long")) as [_ Hsplit].
  apply (Hsplit [(VStr "Sheet1", [[Val "ab"]; [Val "abcd"]; [Val "c"]])]
           [ExcelReader.mkBatch 0 (VStr "Sheet1") 0 [["ab"]]]
           (ExcelReader.mkBatch 0 (VStr "Sheet1") 1 [["abcd"]])
           [ExcelReader.mkBatch 0 (VStr "Sheet1") 2 [["c"]]]).
  - reflexivity.
  - discriminate.
  - reflexivity.
  - constructor; [by eexists | constructor].
  - reflexivity.
Defined.

(** ** When the legacy loader returns *)

Lemma legacy_lines_raise (sep : string) (dfs : list (value * frame)) :
  Exists (λ kd, ∃ n, kd.1 = VInt n) dfs →
  mapM (join_values sep)
       (concat ((λ kd, PandasExcelReader.sheet_lines true kd.1 kd.2) <$> dfs))
  = Raise (TypeError "sequence item 0: expected str instance, int found").
Proof.
  induction dfs as [|[key df] dfs IH]; intros Hint.
  - by apply Exists_nil in Hint.
  - rewrite fmap_cons, concat_cons, mapM_app. cbn [fst snd].
    rewrite sheet_lines_rows, mapM_app, join_rows_returns.
    destruct key as [n|s]; [done|].
    apply Exists_cons in Hint as [[n Hn]|Hint]; [done|].
    by rewrite (IH Hint).
Qed.

(** X8: once the workbook is read, the legacy loader returns (one
    document) when [include_sheetname] is off or every sheet key is a
    [str]. With [include_sheetname] on and a sheet keyed by an [int] (a sheet
    selected by position) it raises the [TypeError] of [str.join] on the
    line that holds the key. *)
Theorem legacy_load_data_outcome
    (self : PandasExcelReader.t) (pd : pandas) (file : Path)
    (include_sheetname : bool) (sheet_name : option sheet_selector)
    (extra_info : option (gmap string value)) (dfs : list (value * frame)) :
  read_excel pd file (as_sheet_list sheet_name) (PandasExcelReader._pandas_config self)
    = Ok dfs →
  (include_sheetname = false ∨ Forall (λ kd, ∃ s, kd.1 = VStr s) dfs →
   ∃ doc,
     PandasExcelReader.load_data self (Some pd) file include_sheetname sheet_name
       extra_info = Ok [doc])
  ∧ (include_sheetname = true →
     Exists (λ kd, ∃ n, kd.1 = VInt n) dfs →
     PandasExcelReader.load_data self (Some pd) file include_sheetname sheet_name
       extra_info
     = Raise (TypeError "sequence item 0: expected str instance, int found")).
Proof.
  intros Hread. unfold PandasExcelReader.load_data. simpl. rewrite Hread. simpl.
  rewrite (foldl_snoc (λ kd, PandasExcelReader.sheet_lines include_sheetname kd.1 kd.2)).
  simpl. split.
  - intros Hkeys.
    destruct (legacy_lines_return (PandasExcelReader._col_joiner self)
                include_sheetname dfs Hkeys) as [lines ->].
    by eexists.
  - intros -> Hint.
    by rewrite (legacy_lines_raise (PandasExcelReader._col_joiner self) dfs Hint).
Qed.

Lemma legacy_load_data_outcome_witness :
  PandasExcelReader.load_data (PandasExcelReader.init None nl " ")
    (Some (workbook [(VStr "S1", scenario_sheet); (VInt 1, three_rows)]))
    book true (Some (SheetList [VStr "S1"; VInt 1])) None
  = Raise (TypeError "sequence item 0: expected str instance, int found").
Proof.
  destruct (legacy_load_data_outcome (PandasExcelReader.init None nl " ")
              (workbook [(VStr "S1", scenario_sheet); (VInt 1, three_rows)])
              book true (Some (SheetList [VStr "S1"; VInt 1])) None
              [(VStr "S1", scenario_sheet); (VInt 1, three_rows)] eq_refl)
    as [_ Hraise].
  apply Hraise; [reflexivity|].
  apply Exists_cons_tl, Exists_cons_hd. by exists 1%Z.
Defined.

(** ** The text given to [split_text] *)

Lemma rstrip_last (s t : string) (c : ascii) :
  rstrip s = t +:+ String c "" → is_whitespace c = false.
Proof.
  revert t. induction s as [|a s IH]; intros t.
  - simpl. by destruct t.
  - simpl. destruct (rstrip s) as [|d r] eqn:Hr.
    + destruct (is_whitespace a) eqn:Ha.
      * by destruct t.
      * destruct t as [|x t]; [by intros [= <-]|].
        intros [= _ Ht]. by destruct t.
    + destruct t as [|x t]; [done|].
      intros [= _ Ht]. by apply (IH t).
Qed.

(** X9: the text of a batch that is handed to [split_text] is trimmed: it
    is a fixed point of [strip], so it is empty or neither starts nor ends
    with a whitespace character, whatever the cells and the joiners are. *)
Theorem rendered_text_is_trimmed (self : ExcelReader.t)
    (batch_rows : list (list string)) :
  strip (ExcelReader.render self batch_rows) = ExcelReader.render self batch_rows
  ∧ (∀ c t, ExcelReader.render self batch_rows = String c t →
            is_whitespace c = false)
  ∧ (∀ t c, ExcelReader.render self batch_rows = t +:+ String c "" →
            is_whitespace c = false).
Proof.
  unfold ExcelReader.render.
  set (whole := join _ _). split; [apply strip_idemp | split].
  - intros c t. unfold strip.
    destruct (lstrip_head whole) as [->|(c' & t' & -> & Hc')]; [done|].
    rewrite (rstrip_cons c' t' Hc'). by intros [= <- _].
  - intros t c. unfold strip. apply rstrip_last.
Qed.

(** ** What the flags do not touch *)

(** Whether the call returns, and with which batches and segments, depends
    neither on [include_sheetname] nor on [extra_info]. *)
Lemma load_data_cases
    (split_text : string → Z → result (list string)) (self : ExcelReader.t)
    (env : option pandas) (file : Path) (sheet_name : option sheet_selector) :
  (∃ e, ∀ include_sheetname extra_info,
      ExcelReader.load_data split_text self env file include_sheetname sheet_name
        extra_info = Raise e)
  ∨ (∃ bs segss,
       length bs = length segss
       ∧ ∀ include_sheetname extra_info,
           ExcelReader.load_data split_text self env file include_sheetname sheet_name
             extra_info
           = Ok (concat (zip_with (ExcelReader.batch_documents file include_sheetname
                                     (default ∅ extra_info)) bs segss))).
Proof.
  destruct env as [pd|]; [|left; by eexists].
  destruct (read_excel pd file (as_sheet_list sheet_name)
              (ExcelReader._pandas_config self)) as [dfs|e] eqn:Hread.
  - destruct (decide (ExcelReader._rows_per_doc self = 0%Z)) as [Hz|Hnz].
    + destruct dfs as [|kd dfs].
      * right. exists [], []. split; [done|]. intros inc extra.
        unfold ExcelReader.load_data. simpl. by rewrite Hread.
      * left. eexists. intros inc extra.
        unfold ExcelReader.load_data. simpl. rewrite Hread. simpl.
        by rewrite load_sheet_zero_step.
    + destruct (mapM (ExcelReader.split_batch split_text self)
                  (ExcelReader.workbook_batches self dfs)) as [segss|e] eqn:Hsplit.
      * right. exists (ExcelReader.workbook_batches self dfs), segss.
        split; [symmetry; by eapply mapM_length|]. intros inc extra.
        rewrite (load_data_eq _ _ _ _ _ _ _ dfs) by done. by rewrite Hsplit.
      * left. exists e. intros inc extra.
        rewrite (load_data_eq _ _ _ _ _ _ _ dfs) by done. by rewrite Hsplit.
  - left. exists e. intros inc extra.
    unfold ExcelReader.load_data. simpl. by rewrite Hread.
Qed.

Lemma Forall2_concat_zip_with {B S D E : Type} (R : D → E → Prop)
    (f : B → S → list D) (g : B → S → list E) (bs : list B) (ss : list S) :
  (∀ b s, Forall2 R (f b s) (g b s)) →
  Forall2 R (concat (zip_with f bs ss)) (concat (zip_with g bs ss)).
Proof.
  intros Hfg. revert ss. induction bs as [|b bs IH]; intros [|s ss]; try constructor.
  simpl. apply Forall2_app; [apply Hfg | apply IH].
Qed.

Lemma Forall2_imap {X D E : Type} (R : D → E → Prop) (f : nat → X → D)
    (g : nat → X → E) (xs : list X) :
  (∀ i x, R (f i x) (g i x)) → Forall2 R (imap f xs) (imap g xs).
Proof.
  revert f g. induction xs as [|x xs IH]; intros f g Hfg; [constructor|].
  rewrite !imap_cons. constructor; [apply Hfg | apply IH]. intros i y. apply Hfg.
Qed.

(** X10: [include_sheetname] changes the texts only. A call with the flag
    off raises exactly when the call with the flag on does, with the same
    exception; when they return, they return as many documents, with the
    same metadata in the same order, and each text with the flag on is the
    text with the flag off after the provenance line of a sheet. *)
Theorem include_sheetname_changes_text_only
    (split_text : string → Z → result (list string)) (self : ExcelReader.t)
    (env : option pandas) (file : Path) (sheet_name : option sheet_selector)
    (extra_info : option (gmap string value)) :
  (∀ e,
     ExcelReader.load_data split_text self env file false sheet_name extra_info
       = Raise e ↔
     ExcelReader.load_data split_text self env file true sheet_name extra_info
       = Raise e)
  ∧ (∀ out,
       ExcelReader.load_data split_text self env file false sheet_name extra_info
         = Ok out →
       ∃ out',
         ExcelReader.load_data split_text self env file true sheet_name extra_info
           = Ok out'
         ∧ metadata <$> out' = metadata <$> out
         ∧ Forall2 (λ d' d, ∃ key, text d' = ExcelReader.with_sheetname key file (text d))
                   out' out).
Proof.
  destruct (load_data_cases split_text self env file sheet_name)
    as [[e0 Hraise]|(bs & segss & Hlen & Hok)].
  - split.
    + intros e. by rewrite !Hraise.
    + intros out. by rewrite Hraise.
  - split.
    + intros e. by rewrite !Hok.
    + intros out. rewrite Hok. intros [= <-]. eexists. split; [apply Hok|]. split.
      * rewrite !concat_zip_with_fmap. f_equal. apply zip_with_ext; [|done..].
        intros b segs. unfold ExcelReader.batch_documents.
        rewrite !fmap_imap. by apply imap_ext.
      * apply Forall2_concat_zip_with. intros b segs.
        unfold ExcelReader.batch_documents. apply Forall2_imap.
        intros c_i c. by exists (ExcelReader.b_key b).
Qed.

Lemma include_sheetname_changes_text_only_witness :
  ∃ out',
    load_data_chars two_token_reader (Some (workbook long_row_sheets)) book true
      None None = Ok out'
    ∧ metadata <$> out' = metadata <$> long_row_documents
    ∧ Forall2 (λ d' d, ∃ key, text d' = ExcelReader.with_sheetname key book (text d))
              out' long_row_documents.
Proof.
  destruct (include_sheetname_changes_text_only
              (SplitText.split_text (H := CharTokenizer.tokenizer)) two_token_reader
              (Some (workbook long_row_sheets)) book None None) as [_ Hok].
  exact (Hok long_row_documents long_row_run).
Defined.

(** X11: [extra_info] changes the metadata only. A call with [extra_info]
    raises exactly when the call without it does, with the same exception;
    when the call without it returns, the call with it returns the same
    documents in the same order, each with its metadata updated by
    [extra_info]. *)
Theorem extra_info_updates_metadata_only
    (split_text : string → Z → result (list string)) (self : ExcelReader.t)
    (env : option pandas) (file : Path) (include_sheetname : bool)
    (sheet_name : option sheet_selector) (extra_info : option (gmap string value)) :
  (∀ e,
     ExcelReader.load_data split_text self env file include_sheetname sheet_name None
       = Raise e ↔
     ExcelReader.load_data split_text self env file include_sheetname sheet_name
       extra_info = Raise e)
  ∧ (∀ out,
       ExcelReader.load_data split_text self env file include_sheetname sheet_name None
         = Ok out →
       ExcelReader.load_data split_text self env file include_sheetname sheet_name
         extra_info
       = Ok ((λ d, {| text := text d;
                      metadata := dict_update (metadata d) (default ∅ extra_info) |})
               <$> out)).
Proof.
  destruct (load_data_cases split_text self env file sheet_name)
    as [[e0 Hraise]|(bs & segss & Hlen & Hok)].
  - split.
    + intros e. by rewrite !Hraise.
    + intros out. by rewrite Hraise.
  - split.
    + intros e. by rewrite !Hok.
    + intros out. rewrite !Hok. intros [= <-]. f_equal.
      rewrite concat_zip_with_fmap. f_equal. apply zip_with_ext; [|done..].
      intros b segs. unfold ExcelReader.batch_documents. rewrite fmap_imap.
      apply imap_ext. intros c_i c _. unfold ExcelReader.segment_document. simpl.
      f_equal; unfold dict_update; by rewrite (left_id_L ∅ (∪)).
Qed.

Lemma extra_info_updates_metadata_only_witness :
  load_data_chars two_token_reader (Some (workbook long_row_sheets)) book false None
    (Some {[ "source" := VStr "x" ]})
  = Ok ((λ d, {| text := text d;
                 metadata := dict_update (metadata d) {[ "source" := VStr "x" ]} |})
          <$> long_row_documents).
Proof.
  destruct (extra_info_updates_metadata_only
              (SplitText.split_text (H := CharTokenizer.tokenizer)) two_token_reader
              (Some (workbook long_row_sheets)) book false None
              (Some {[ "source" := VStr "x" ]})) as [_ Hok].
  exact (Hok long_row_documents long_row_run).
Defined.

(** ** When [ExcelReader.load_data] returns *)

(** X12: [ExcelReader.load_data] returns exactly when [pandas] is there,
    [read_excel] returns the frames, the step is not zero (or there is no
    sheet), and [split_text] returns on the rendered text of every batch;
    what it returns is then the documents of the batches, in order. *)
Theorem load_data_returns_iff
    (split_text : string → Z → result (list string)) (self : ExcelReader.t)
    (env : option pandas) (file : Path) (include_sheetname : bool)
    (sheet_name : option sheet_selector) (extra_info : option (gmap string value))
    (out : list Document) :
  ExcelReader.load_data split_text self env file include_sheetname sheet_name extra_info
    = Ok out
  ↔ ∃ pd dfs segss,
      env = Some pd
      ∧ read_excel pd file (as_sheet_list sheet_name) (ExcelReader._pandas_config self)
        = Ok dfs
      ∧ (dfs = [] ∨ ExcelReader._rows_per_doc self ≠ 0%Z)
      ∧ Forall2 (λ b segs,
                   split_text (ExcelReader.render self (ExcelReader.b_rows b))
                              (ExcelReader.max_words_per_page self) = Ok segs)
                (ExcelReader.workbook_batches self dfs) segss
      ∧ out = concat (zip_with (ExcelReader.batch_documents file include_sheetname
                                  (default ∅ extra_info))
                               (ExcelReader.workbook_batches self dfs) segss).
Proof.
  split.
  - intros Hload.
    destruct (load_data_Ok_inv _ _ _ _ _ _ _ _ Hload)
      as (pd & dfs & segss & -> & Hread & Hsplit & ->).
    exists pd, dfs, segss. repeat split; try done.
    destruct dfs as [|kd dfs]; [by left | right]. intros Hz.
    unfold ExcelReader.load_data in Hload. simpl in Hload. rewrite Hread in Hload.
    simpl in Hload. by rewrite load_sheet_zero_step in Hload.
  - intros (pd & dfs & segss & -> & Hread & [-> | Hn] & Hsplit & ->).
    + apply Forall2_nil_inv_l in Hsplit as ->.
      unfold ExcelReader.load_data. simpl. by rewrite Hread.
    + rewrite (load_data_eq _ _ _ _ _ _ _ dfs) by done.
      apply mapM_Ok in Hsplit. unfold ExcelReader.split_batch at 1.
      by rewrite Hsplit.
Qed.

Lemma load_data_returns_iff_witness :
  load_data_chars two_token_reader (Some (workbook long_row_sheets)) book false
    None None
  = Ok long_row_documents.
Proof.
  apply (load_data_returns_iff (SplitText.split_text (H := CharTokenizer.tokenizer))
           two_token_reader (Some (workbook long_row_sheets)) book false None None
           long_row_documents).
  exists (workbook long_row_sheets), long_row_sheets, [["ab"; "c"]; []].
  split; [reflexivity|]. split; [reflexivity|]. split; [right; discriminate|].
  split; [|reflexivity].
  constructor; [reflexivity|]. constructor; [reflexivity|]. constructor.
Defined.
